(** * Head-direction and expression classifiers of emoji_collector

    A shallow embedding of [FaceTracker.calculateDirection] (FaceTracker.ts)
    and [EmojiMatcher.analyzeExpression] (EmojiMatcher.ts), and the
    properties of the landmark-to-signal layer that are stated about them.

    JavaScript numbers are IEEE 754 binary64 values; they are modelled by
    Rocq's primitive [float], whose operations are the same binary64
    operations with round-to-nearest-even, and whose decimal literals are
    rounded to the nearest binary64 value as JavaScript's are. *)

From Stdlib Require Import Floats.
From Stdlib Require Import Uint63.
From Stdlib Require Import String ZArith PArith List Bool Arith Lia.
Import ListNotations.

Set Warnings "-inexact-float".

(* ================================================================== *)
(** ** JavaScript values *)
(* ================================================================== *)

Module JS.

(** A JavaScript [number]. *)
Definition number : Set := float.
Bind Scope float_scope with number.

(** The result of running a piece of code: a value, or a thrown
    [TypeError] (reading a property of [undefined]). *)
Inductive outcome (A : Type) : Type :=
| Ok (a : A)
| TypeError.
Arguments Ok {A} a.
Arguments TypeError {A}.

Definition bind {A B : Type} (c : outcome A) (k : A -> outcome B) : outcome B :=
  match c with
  | Ok a => k a
  | TypeError => TypeError
  end.

(** [a > b] and [a >= b]; like [<] and [<=] they are false as soon as one
    side is NaN. *)
Definition gtb (a b : number) : bool := PrimFloat.ltb b a.
Definition geb (a b : number) : bool := PrimFloat.leb b a.

(** The number that an array length or a loop bound denotes. *)
Definition of_nat (n : nat) : number := PrimFloat.of_uint63 (Uint63.of_Z (Z.of_nat n)).

(** [v || 0] for a property that holds a number or is missing: the value
    itself when it is truthy, [0] when it is [undefined], [0], [-0] or NaN. *)
Definition or_zero (v : option number) : number :=
  match v with
  | Some n => if PrimFloat.eqb n 0%float || PrimFloat.is_nan n then 0%float else n
  | None => 0%float
  end.

(** [a[i] = v] for an index below the length. The callers below only
    assign inside the array; an assignment past the end, which in
    JavaScript grows the array, leaves the list as it is here. *)
Fixpoint assign {A : Type} (a : list A) (i : nat) (v : A) : list A :=
  match a, i with
  | [], _ => []
  | _ :: rest, O => v :: rest
  | e :: rest, S j => e :: assign rest j v
  end.

End JS.

Declare Scope js_scope.
Delimit Scope js_scope with js.
Notation "'let*' v ':=' c 'in' k" := (JS.bind c (fun v => k))
  (at level 10, v name, c at level 100, k at level 200) : js_scope.
Infix ">?" := JS.gtb (at level 70, no associativity) : float_scope.
Infix ">=?" := JS.geb (at level 70, no associativity) : float_scope.
Notation "l [[ i ]]" := (nth_error l i%nat) (at level 1, format "l [[ i ]]") : js_scope.

Import JS.
Local Open Scope js_scope.
Local Open Scope float_scope.

(* ================================================================== *)
(** ** FaceTracker.ts: the exported data types *)
(* ================================================================== *)

Inductive HeadDirection : Set := CENTER | LEFT | RIGHT | UP | DOWN.

(** [interface Landmark]. *)
Record Landmark : Set := mkLandmark { x : number; y : number; z : number }.

(** [p.x] and [p.y] where [p] was read from the array and is [undefined]
    ([None]) when the index was out of range: reading a property of
    [undefined] throws. *)
Definition prop_x (p : option Landmark) : outcome number :=
  match p with
  | Some lm => Ok (x lm)
  | None => TypeError
  end.

Definition prop_y (p : option Landmark) : outcome number :=
  match p with
  | Some lm => Ok (y lm)
  | None => TypeError
  end.

(* ================================================================== *)
(** ** EmojiMatcher.ts *)
(* ================================================================== *)

Module EmojiMatcher.

Inductive Expression : Set :=
| NEUTRAL | HAPPY | VERY_HAPPY | SAD | SURPRISED | ANGRY
| WINK | KISS | TONGUE_OUT | THINKING | SLEEPY | CONFUSED.

(** [===] on two members of the enum. *)
Definition Expression_eqb (a b : Expression) : bool :=
  match a, b with
  | NEUTRAL, NEUTRAL | HAPPY, HAPPY | VERY_HAPPY, VERY_HAPPY | SAD, SAD
  | SURPRISED, SURPRISED | ANGRY, ANGRY | WINK, WINK | KISS, KISS
  | TONGUE_OUT, TONGUE_OUT | THINKING, THINKING | SLEEPY, SLEEPY
  | CONFUSED, CONFUSED => true
  | _, _ => false
  end.

Record ExpressionResult : Set := mkExpressionResult {
  expression : Expression;
  emoji : string;
  confidence : number
}.

(** [emojiMap], with the glyphs as the source file has them. *)
Definition emojiMap (e : Expression) : string :=
  match e with
  | NEUTRAL => "üòê"
  | HAPPY => "üôÇ"
  | VERY_HAPPY => "üòÑ"
  | SAD => "üò¢"
  | SURPRISED => "üòÆ"
  | ANGRY => "üò†"
  | WINK => "üòâ"
  | KISS => "üòò"
  | TONGUE_OUT => "üòõ"
  | THINKING => "ü§î"
  | SLEEPY => "üò¥"
  | CONFUSED => "üòï"
  end%string.

(** The two mutable fields of an [EmojiMatcher] instance. *)
Record state : Set := mkState {
  lastExpression : Expression;
  expressionStability : number
}.

(** The instance as the field initialisers leave it. *)
Definition initial : state :=
  {| lastExpression := NEUTRAL; expressionStability := 0 |}.

Definition calculateMouthOpenness (landmarks : list Landmark) : outcome number :=
  let upperLip := landmarks[[13]] in
  let lowerLip := landmarks[[14]] in
  let upperInner := landmarks[[12]] in
  let lowerInner := landmarks[[15]] in
  let* lowerLip_y := prop_y lowerLip in
  let* upperLip_y := prop_y upperLip in
  let outerDistance := abs (lowerLip_y - upperLip_y) in
  let* lowerInner_y := prop_y lowerInner in
  let* upperInner_y := prop_y upperInner in
  let innerDistance := abs (lowerInner_y - upperInner_y) in
  Ok ((outerDistance + innerDistance) / 2).

Definition calculateSmileLevel (landmarks : list Landmark) : outcome number :=
  let leftCorner := landmarks[[61]] in
  let rightCorner := landmarks[[291]] in
  let upperLipCenter := landmarks[[0]] in
  let lowerLipCenter := landmarks[[17]] in
  let* upperLipCenter_y := prop_y upperLipCenter in
  let* lowerLipCenter_y := prop_y lowerLipCenter in
  let mouthCenterY := (upperLipCenter_y + lowerLipCenter_y) / 2 in
  let* leftCorner_y := prop_y leftCorner in
  let* rightCorner_y := prop_y rightCorner in
  let avgCornerY := (leftCorner_y + rightCorner_y) / 2 in
  let* rightCorner_x := prop_x rightCorner in
  let* leftCorner_x := prop_x leftCorner in
  let mouthWidth := abs (rightCorner_x - leftCorner_x) in
  let verticalSmile := mouthCenterY - avgCornerY in
  let widthFactor := if mouthWidth >? 0.15 then 0.02 else 0 in
  Ok (verticalSmile + widthFactor).

Definition calculateEyebrowRaise (landmarks : list Landmark) : outcome number :=
  let leftBrow1 := landmarks[[70]] in
  let leftBrow2 := landmarks[[63]] in
  let leftBrow3 := landmarks[[105]] in
  let rightBrow1 := landmarks[[300]] in
  let rightBrow2 := landmarks[[293]] in
  let rightBrow3 := landmarks[[334]] in
  let leftEyeTop := landmarks[[159]] in
  let rightEyeTop := landmarks[[386]] in
  let* leftBrow1_y := prop_y leftBrow1 in
  let* leftBrow2_y := prop_y leftBrow2 in
  let* leftBrow3_y := prop_y leftBrow3 in
  let leftBrowAvg := (leftBrow1_y + leftBrow2_y + leftBrow3_y) / 3 in
  let* rightBrow1_y := prop_y rightBrow1 in
  let* rightBrow2_y := prop_y rightBrow2 in
  let* rightBrow3_y := prop_y rightBrow3 in
  let rightBrowAvg := (rightBrow1_y + rightBrow2_y + rightBrow3_y) / 3 in
  let* leftEyeTop_y := prop_y leftEyeTop in
  let leftDistance := leftEyeTop_y - leftBrowAvg in
  let* rightEyeTop_y := prop_y rightEyeTop in
  let rightDistance := rightEyeTop_y - rightBrowAvg in
  Ok ((leftDistance + rightDistance) / 2).

(** The parameter [eye: 'left' | 'right']. *)
Inductive EyeSide : Set := eye_left | eye_right.

(** One round of the [for] loop of [calculateEyeOpenness]: [acc] is
    [totalDistance] so far (or the exception already thrown). *)
Definition eyeOpennessStep (landmarks : list Landmark) (topIndices bottomIndices : list nat)
    (acc : outcome number) (i : nat) : outcome number :=
  let* totalDistance := acc in
  let top := landmarks[[nth i topIndices 0%nat]] in
  let bottom := landmarks[[nth i bottomIndices 0%nat]] in
  let* bottom_y := prop_y bottom in
  let* top_y := prop_y top in
  Ok (totalDistance + abs (bottom_y - top_y)).

Definition calculateEyeOpenness (landmarks : list Landmark) (eye : EyeSide) : outcome number :=
  let topIndices : list nat :=
    match eye with
    | eye_left => [159; 158; 157; 173]
    | eye_right => [386; 385; 384; 398]
    end%nat in
  let bottomIndices : list nat :=
    match eye with
    | eye_left => [145; 144; 143; 153]
    | eye_right => [374; 373; 372; 380]
    end%nat in
  let numPoints := Nat.min (length topIndices) (length bottomIndices) in
  let* totalDistance :=
    fold_left (eyeOpennessStep landmarks topIndices bottomIndices) (seq 0 numPoints) (Ok 0) in
  Ok (totalDistance / JS.of_nat numPoints).

Definition calculateMouthWidth (landmarks : list Landmark) : outcome number :=
  let leftCorner := landmarks[[61]] in
  let rightCorner := landmarks[[291]] in
  let* rightCorner_x := prop_x rightCorner in
  let* leftCorner_x := prop_x leftCorner in
  Ok (abs (rightCorner_x - leftCorner_x)).

Definition calculateLipsPucker (landmarks : list Landmark) : outcome number :=
  let upperLip := landmarks[[0]] in
  let lowerLip := landmarks[[17]] in
  let leftCorner := landmarks[[61]] in
  let rightCorner := landmarks[[291]] in
  let* upperLip_x := prop_x upperLip in
  let* lowerLip_x := prop_x lowerLip in
  let lipCenterX := (upperLip_x + lowerLip_x) / 2 in
  let* leftCorner_x := prop_x leftCorner in
  let* rightCorner_x := prop_x rightCorner in
  let cornerCenterX := (leftCorner_x + rightCorner_x) / 2 in
  Ok (abs (lipCenterX - cornerCenterX)).

Definition calculateHeadTilt (landmarks : list Landmark) : outcome number :=
  let leftEye := landmarks[[33]] in
  let rightEye := landmarks[[263]] in
  let* rightEye_y := prop_y rightEye in
  let* leftEye_y := prop_y leftEye in
  let deltaY := rightEye_y - leftEye_y in
  let* rightEye_x := prop_x rightEye in
  let* leftEye_x := prop_x leftEye in
  let deltaX := rightEye_x - leftEye_x in
  Ok (deltaY / (deltaX + 0.0001)).

(** The eight local constants that [analyzeExpression] computes first. *)
Record Metrics : Set := mkMetrics {
  mouthOpenness : number;
  smileLevel : number;
  eyebrowRaise : number;
  leftEyeOpenness : number;
  rightEyeOpenness : number;
  mouthWidth : number;
  lipsPucker : number;
  headTilt : number
}.

Definition calculateMetrics (landmarks : list Landmark) : outcome Metrics :=
  let* mouthOpenness := calculateMouthOpenness landmarks in
  let* smileLevel := calculateSmileLevel landmarks in
  let* eyebrowRaise := calculateEyebrowRaise landmarks in
  let* leftEyeOpenness := calculateEyeOpenness landmarks eye_left in
  let* rightEyeOpenness := calculateEyeOpenness landmarks eye_right in
  let* mouthWidth := calculateMouthWidth landmarks in
  let* lipsPucker := calculateLipsPucker landmarks in
  let* headTilt := calculateHeadTilt landmarks in
  Ok (mkMetrics mouthOpenness smileLevel eyebrowRaise leftEyeOpenness
                rightEyeOpenness mouthWidth lipsPucker headTilt).

(** The [if / else if] ladder: the pair ([detectedExpression],
    [confidence]) it leaves. *)
Definition detect (m : Metrics) : Expression * number :=
  let eyeDifference := abs (leftEyeOpenness m - rightEyeOpenness m) in
  if (eyeDifference >? 0.012)
     && ((leftEyeOpenness m <? 0.015) || (rightEyeOpenness m <? 0.015)) then
    (WINK, 0.9)
  else if (lipsPucker m >? 0.015) && (mouthWidth m <? 0.12) then
    (KISS, 0.85)
  else if (mouthOpenness m >? 0.045) && (eyebrowRaise m >? 0.035) then
    (SURPRISED, 0.9)
  else if (mouthOpenness m >? 0.05) && (mouthWidth m >? 0.14) && (smileLevel m >? 0.01) then
    (TONGUE_OUT, 0.8)
  else if (smileLevel m >? 0.045) && (mouthWidth m >? 0.15) then
    (VERY_HAPPY, 0.9)
  else if smileLevel m >? 0.025 then
    (HAPPY, 0.85)
  else if smileLevel m <? -0.015 then
    (SAD, 0.8)
  else if (abs (headTilt m) >? 0.03) && (eyebrowRaise m >? 0.025) && (eyebrowRaise m <? 0.04) then
    (THINKING, 0.75)
  else if (leftEyeOpenness m <? 0.018) && (rightEyeOpenness m <? 0.018)
          && (abs eyeDifference <? 0.005) then
    (SLEEPY, 0.8)
  else if (eyebrowRaise m >? 0.02) && (eyebrowRaise m <? 0.035)
          && (abs (smileLevel m) <? 0.015) then
    (CONFUSED, 0.7)
  else if (eyebrowRaise m <? 0.025) && (smileLevel m <? 0.005) && (mouthWidth m <? 0.13) then
    (ANGRY, 0.75)
  else
    (NEUTRAL, 0.5).

(** The part of [analyzeExpression] after the length guard and before
    the smoothing: metrics, then the ladder. *)
Definition rawClassification (landmarks : list Landmark) : outcome (Expression * number) :=
  let* m := calculateMetrics landmarks in
  Ok (detect m).

(** The smoothing block: the two assignments to [this], in order. *)
Definition smooth (this : state) (detectedExpression : Expression) : state :=
  let this1 :=
    if Expression_eqb detectedExpression (lastExpression this) then
      {| lastExpression := lastExpression this;
         expressionStability := expressionStability this + 1 |}
    else
      {| lastExpression := lastExpression this;
         expressionStability := 0 |} in
  if (expressionStability this1 >=? 2)
     || negb (Expression_eqb detectedExpression (lastExpression this1)) then
    {| lastExpression := detectedExpression;
       expressionStability := expressionStability this1 |}
  else
    this1.

(** [analyzeExpression]: the result together with the instance's fields
    after the call. *)
Definition analyzeExpression (this : state) (landmarks : list Landmark)
    : outcome (ExpressionResult * state) :=
  if Nat.ltb (length landmarks) 468 then
    Ok ({| expression := NEUTRAL; emoji := emojiMap NEUTRAL; confidence := 0 |}, this)
  else
    let* raw := rawClassification landmarks in
    let '(detectedExpression, confidence) := raw in
    let this' := smooth this detectedExpression in
    Ok ({| expression := lastExpression this';
           emoji := emojiMap (lastExpression this');
           confidence := confidence |}, this').

End EmojiMatcher.

(* ================================================================== *)
(** ** FaceTracker.ts: the tracker *)
(* ================================================================== *)

Module FaceTracker.

Record FaceTrackingResult : Set := mkFaceTrackingResult {
  detected : bool;
  landmarks : list Landmark;
  direction : HeadDirection;
  confidence : number;
  emoji : option string;
  expression : option EmojiMatcher.Expression
}.

(** The fields of a [FaceTracker] instance. [faceMesh] is the handle of
    the external model ([None] is [null]); nothing below looks inside it. *)
Record state : Set := mkState {
  faceMesh : option unit;
  ready : bool;
  lastResult : option FaceTrackingResult;
  directionThreshold : number;
  emojiMatcher : EmojiMatcher.state
}.

(** The instance as the field initialisers leave it. *)
Definition initial : state :=
  {| faceMesh := None;
     ready := false;
     lastResult := None;
     directionThreshold := 0.15;
     emojiMatcher := EmojiMatcher.initial |}.

(** [calculateDirection] after its length guard. *)
Definition directionPastGuard (this : state) (landmarks : list Landmark)
    : outcome HeadDirection :=
  let noseTip := landmarks[[1]] in
  let leftEye := landmarks[[33]] in
  let rightEye := landmarks[[263]] in
  let chin := landmarks[[152]] in
  let* leftEye_x := prop_x leftEye in
  let* rightEye_x := prop_x rightEye in
  let faceCenterX := (leftEye_x + rightEye_x) / 2 in
  let* leftEye_y := prop_y leftEye in
  let* rightEye_y := prop_y rightEye in
  let* chin_y := prop_y chin in
  let faceCenterY := (leftEye_y + rightEye_y + chin_y) / 3 in
  let* noseTip_x := prop_x noseTip in
  let horizontalOffset := noseTip_x - faceCenterX in
  let* noseTip_y := prop_y noseTip in
  let verticalOffset := noseTip_y - faceCenterY in
  let threshold := directionThreshold this in
  if abs horizontalOffset >? abs verticalOffset then
    if horizontalOffset >? threshold then Ok LEFT
    else if horizontalOffset <? - threshold then Ok RIGHT
    else Ok CENTER
  else
    if verticalOffset >? threshold then Ok DOWN
    else if verticalOffset <? - threshold then Ok UP
    else Ok CENTER.

Definition calculateDirection (this : state) (landmarks : list Landmark)
    : outcome HeadDirection :=
  if Nat.ltb (length landmarks) 468 then Ok CENTER
  else directionPastGuard this landmarks.

(** A point as the face-mesh model reports it; [z] may be missing. *)
Record NormalizedLandmark : Set := mkNormalizedLandmark {
  lm_x : number;
  lm_y : number;
  lm_z : option number
}.

(** [handleResults], given [results.multiFaceLandmarks] ([None] when the
    property is missing): the instance after the callback. *)
Definition handleResults (this : state)
    (multiFaceLandmarks : option (list (list NormalizedLandmark))) : outcome state :=
  let noFace :=
    Ok {| faceMesh := faceMesh this;
          ready := ready this;
          lastResult := Some {| detected := false;
                                landmarks := [];
                                direction := CENTER;
                                confidence := 0;
                                emoji := None;
                                expression := None |};
          directionThreshold := directionThreshold this;
          emojiMatcher := emojiMatcher this |} in
  match multiFaceLandmarks with
  | None => noFace
  | Some [] => noFace
  | Some (faceLandmarks :: _) =>
      let landmarks :=
        map (fun lm => {| x := lm_x lm; y := lm_y lm; z := JS.or_zero (lm_z lm) |})
            faceLandmarks in
      let* direction := calculateDirection this landmarks in
      let* analysed := EmojiMatcher.analyzeExpression (emojiMatcher this) landmarks in
      let '(expressionResult, matcher') := analysed in
      Ok {| faceMesh := faceMesh this;
            ready := ready this;
            lastResult := Some {| detected := true;
                                  landmarks := landmarks;
                                  direction := direction;
                                  confidence := 1.0;
                                  emoji := Some (EmojiMatcher.emoji expressionResult);
                                  expression := Some (EmojiMatcher.expression expressionResult) |};
            directionThreshold := directionThreshold this;
            emojiMatcher := matcher' |}
  end.

(** The callback run on a sequence of model results, one after another. *)
Fixpoint handleAll (this : state)
    (frames : list (option (list (list NormalizedLandmark)))) : outcome state :=
  match frames with
  | [] => Ok this
  | results :: rest =>
      let* this' := handleResults this results in
      handleAll this' rest
  end.

End FaceTracker.

(* ================================================================== *)
(** ** Frames and trackers of the examples *)
(* ================================================================== *)

(** [createMockLandmarks] and the 100-point frame are those of
    tests/FaceTracker.test.ts. *)

Module Tests.

(** [createMockLandmarks]: 468 points at (0.5, 0.5), then the nose tip,
    the two eyes and the chin. *)
Definition createMockLandmarks (noseTipX noseTipY : number) : list Landmark :=
  let landmarks := map (fun _ => {| x := 0.5; y := 0.5; z := 0 |}) (seq 0 468) in
  let landmarks := JS.assign landmarks 1 {| x := noseTipX; y := noseTipY; z := 0 |} in
  let landmarks := JS.assign landmarks 33 {| x := 0.4; y := 0.4; z := 0 |} in
  let landmarks := JS.assign landmarks 263 {| x := 0.6; y := 0.4; z := 0 |} in
  JS.assign landmarks 152 {| x := 0.5; y := 0.7; z := 0 |}.

(** A tracker as [initialize] leaves it for a configuration with the given
    [directionThreshold]. *)
Definition trackerWith (threshold : number) : FaceTracker.state :=
  {| FaceTracker.faceMesh := Some tt;
     FaceTracker.ready := true;
     FaceTracker.lastResult := None;
     FaceTracker.directionThreshold := threshold;
     FaceTracker.emojiMatcher := EmojiMatcher.initial |}.

(** The frame of the test "should return CENTER for insufficient
    landmarks": 100 points. *)
Definition hundredLandmarks : list Landmark :=
  map (fun _ => {| x := 0.5; y := 0.5; z := 0 |}) (seq 0 100).

(** A face seen almost in profile: the mock frame with the left eye (33)
    at x = 0.0001 and the right eye (263) at x = 0. *)
Definition profileLandmarks : list Landmark :=
  JS.assign
    (JS.assign (createMockLandmarks 0.5 0.5) 33 {| x := 0.0001; y := 0.4; z := 0 |})
    263 {| x := 0; y := 0.5; z := 0 |}.

End Tests.

(* ================================================================== *)
(** ** The specification's vocabulary *)
(* ================================================================== *)

Module Spec.

Import EmojiMatcher.

(** *** DirectionClassifier, steps 2 and 3 *)

Definition faceCenterX (leftEye rightEye : Landmark) : number :=
  (x leftEye + x rightEye) / 2.

Definition faceCenterY (leftEye rightEye chin : Landmark) : number :=
  (y leftEye + y rightEye + y chin) / 3.

Definition horizontalOffset (noseTip leftEye rightEye : Landmark) : number :=
  x noseTip - faceCenterX leftEye rightEye.

Definition verticalOffset (noseTip leftEye rightEye chin : Landmark) : number :=
  y noseTip - faceCenterY leftEye rightEye chin.

(** Step 4 as the code decides it: the horizontal axis is the one tested
    when its magnitude is strictly the larger. *)
Definition horizontalWins (h v : number) : bool := abs h >? abs v.


(** The same mapping with the two tests of an axis taken in the order
    they are listed: the second label only when the first test failed. *)
Definition mappingInOrder (h v threshold : number) (r : HeadDirection) : Prop :=
  (horizontalWins h v = true ->
     ((h >? threshold) = true -> r = LEFT) /\
     ((h >? threshold) = false -> (h <? - threshold) = true -> r = RIGHT) /\
     ((h >? threshold) = false -> (h <? - threshold) = false -> r = CENTER)) /\
  (horizontalWins h v = false ->
     ((v >? threshold) = true -> r = DOWN) /\
     ((v >? threshold) = false -> (v <? - threshold) = true -> r = UP) /\
     ((v >? threshold) = false -> (v <? - threshold) = false -> r = CENTER)).

(** The divisor of the headTilt metric. *)
Definition headTiltDenominator (leftEye rightEye : Landmark) : number :=
  x rightEye - x leftEye + 0.0001.

(** A coordinate in [0,1]. *)
Definition normalized (c : number) : bool := (0 <=? c) && (c <=? 1).

(** *** ExpressionClassifier: the ordered rule table *)

Definition asymmetry (m : Metrics) : number :=
  abs (leftEyeOpenness m - rightEyeOpenness m).

Definition winkRule (m : Metrics) : bool :=
  (asymmetry m >? 0.012)
  && ((leftEyeOpenness m <? 0.015) || (rightEyeOpenness m <? 0.015)).

Definition kissRule (m : Metrics) : bool :=
  (lipsPucker m >? 0.015) && (mouthWidth m <? 0.12).

Definition surprisedRule (m : Metrics) : bool :=
  (mouthOpenness m >? 0.045) && (eyebrowRaise m >? 0.035).

Definition tongueOutRule (m : Metrics) : bool :=
  (mouthOpenness m >? 0.05) && (mouthWidth m >? 0.14) && (smileLevel m >? 0.01).

Definition veryHappyRule (m : Metrics) : bool :=
  (smileLevel m >? 0.045) && (mouthWidth m >? 0.15).

Definition happyRule (m : Metrics) : bool := smileLevel m >? 0.025.

Definition sadRule (m : Metrics) : bool := smileLevel m <? -0.015.

Definition thinkingRule (m : Metrics) : bool :=
  (abs (headTilt m) >? 0.03) && (eyebrowRaise m >? 0.025) && (eyebrowRaise m <? 0.04).

(** "symmetric": the asymmetry is below 0.005. *)
Definition sleepyRule (m : Metrics) : bool :=
  (leftEyeOpenness m <? 0.018) && (rightEyeOpenness m <? 0.018)
  && (abs (asymmetry m) <? 0.005).

(** "near-flat smile": the smile level is within 0.015 of zero. *)
Definition confusedRule (m : Metrics) : bool :=
  (eyebrowRaise m >? 0.02) && (eyebrowRaise m <? 0.035) && (abs (smileLevel m) <? 0.015).

Definition angryRule (m : Metrics) : bool :=
  (eyebrowRaise m <? 0.025) && (smileLevel m <? 0.005) && (mouthWidth m <? 0.13).

Definition ruleTable : list ((Metrics -> bool) * Expression) :=
  [ (winkRule, WINK); (kissRule, KISS); (surprisedRule, SURPRISED);
    (tongueOutRule, TONGUE_OUT); (veryHappyRule, VERY_HAPPY); (happyRule, HAPPY);
    (sadRule, SAD); (thinkingRule, THINKING); (sleepyRule, SLEEPY);
    (confusedRule, CONFUSED); (angryRule, ANGRY) ].

(** First match wins; [NEUTRAL] when no rule matches. *)
Fixpoint firstMatch (rules : list ((Metrics -> bool) * Expression)) (m : Metrics)
    : Expression :=
  match rules with
  | [] => NEUTRAL
  | (applies, label) :: rest => if applies m then label else firstMatch rest m
  end.

(** *** ExpressionClassifier: the stability filter *)

(** The counter after a call that classified [fresh]. *)
Definition counterAfter (this : state) (fresh : Expression) (counter' : number) : Prop :=
  (fresh = lastExpression this -> counter' = expressionStability this + 1) /\
  (fresh <> lastExpression this -> counter' = 0).

(** The committed label after that call, given the updated counter. *)
Definition committedAfter (this : state) (fresh : Expression) (counter' : number)
    (committed : Expression) : Prop :=
  ((counter' >=? 2) = true \/ fresh <> lastExpression this -> committed = fresh) /\
  (~ ((counter' >=? 2) = true \/ fresh <> lastExpression this) ->
     committed = lastExpression this).

End Spec.

(* ================================================================== *)
(** ** EmojiMatcher.ts: the enum's values and the ladder's constants *)
(* ================================================================== *)

Module Labels.

Import EmojiMatcher.

(** The string value of each member of [enum Expression]. *)
Definition value (e : Expression) : string :=
  match e with
  | NEUTRAL => "neutral"
  | HAPPY => "happy"
  | VERY_HAPPY => "very_happy"
  | SAD => "sad"
  | SURPRISED => "surprised"
  | ANGRY => "angry"
  | WINK => "wink"
  | KISS => "kiss"
  | TONGUE_OUT => "tongue_out"
  | THINKING => "thinking"
  | SLEEPY => "sleepy"
  | CONFUSED => "confused"
  end%string.

(** The confidence that the ladder of [analyzeExpression] assigns in the
    branch of each label (0.5 is the initial value, kept when no branch is
    taken). *)
Definition confidenceOf (e : Expression) : number :=
  match e with
  | NEUTRAL => 0.5
  | HAPPY => 0.85
  | VERY_HAPPY => 0.9
  | SAD => 0.8
  | SURPRISED => 0.9
  | ANGRY => 0.75
  | WINK => 0.9
  | KISS => 0.85
  | TONGUE_OUT => 0.8
  | THINKING => 0.75
  | SLEEPY => 0.8
  | CONFUSED => 0.7
  end.

(** The condition of the branch of each label; for NEUTRAL, that no branch
    condition holds. *)
Definition conditionOf (e : Expression) (m : Metrics) : bool :=
  match e with
  | WINK => Spec.winkRule m
  | KISS => Spec.kissRule m
  | SURPRISED => Spec.surprisedRule m
  | TONGUE_OUT => Spec.tongueOutRule m
  | VERY_HAPPY => Spec.veryHappyRule m
  | HAPPY => Spec.happyRule m
  | SAD => Spec.sadRule m
  | THINKING => Spec.thinkingRule m
  | SLEEPY => Spec.sleepyRule m
  | CONFUSED => Spec.confusedRule m
  | ANGRY => Spec.angryRule m
  | NEUTRAL => forallb (fun rule => negb (fst rule m)) Spec.ruleTable
  end.

(** The labels whose branch comes before the branch of [e] in the ladder. *)
Definition before (e : Expression) : list Expression :=
  match e with
  | WINK => []
  | KISS => [WINK]
  | SURPRISED => [WINK; KISS]
  | TONGUE_OUT => [WINK; KISS; SURPRISED]
  | VERY_HAPPY => [WINK; KISS; SURPRISED; TONGUE_OUT]
  | HAPPY => [WINK; KISS; SURPRISED; TONGUE_OUT; VERY_HAPPY]
  | SAD => [WINK; KISS; SURPRISED; TONGUE_OUT; VERY_HAPPY; HAPPY]
  | THINKING => [WINK; KISS; SURPRISED; TONGUE_OUT; VERY_HAPPY; HAPPY; SAD]
  | SLEEPY => [WINK; KISS; SURPRISED; TONGUE_OUT; VERY_HAPPY; HAPPY; SAD; THINKING]
  | CONFUSED =>
      [WINK; KISS; SURPRISED; TONGUE_OUT; VERY_HAPPY; HAPPY; SAD; THINKING; SLEEPY]
  | ANGRY =>
      [WINK; KISS; SURPRISED; TONGUE_OUT; VERY_HAPPY; HAPPY; SAD; THINKING; SLEEPY; CONFUSED]
  | NEUTRAL =>
      [WINK; KISS; SURPRISED; TONGUE_OUT; VERY_HAPPY; HAPPY; SAD; THINKING; SLEEPY; CONFUSED;
       ANGRY]
  end.

(** Two frames that agree on the x and y of every point (their z may
    differ). *)
Definition sameXY (l1 l2 : list Landmark) : Prop :=
  map (fun p => (x p, y p)) l1 = map (fun p => (x p, y p)) l2.

End Labels.

(* ================================================================== *)
(** ** Thrown errors *)
(* ================================================================== *)

(** What a function that can [throw new Error(message)] completes with. *)
Inductive exception : Set :=
| Error (message : string)
| UncaughtTypeError.

Inductive completion (A : Type) : Type :=
| Returns (a : A)
| Throws (e : exception).
Arguments Returns {A} a.
Arguments Throws {A} e.

(* ================================================================== *)
(** ** FaceTracker.ts: initialize, processFrame, isReady, dispose *)
(* ================================================================== *)

Module TrackingConfig.

(** [interface TrackingConfig]. *)
Record t : Set := mk {
  minDetectionConfidence : number;
  minTrackingConfidence : number;
  directionThreshold : number
}.

End TrackingConfig.

Module FaceTrackerLifecycle.

(** [initialize]. [faceMeshLoaded] tells whether [window.FaceMesh] is
    defined. The constructor of the external model and its [setOptions] and
    [onResults] are taken to return normally; the [catch] block logs and
    rethrows. The assignment to [directionThreshold] comes before the check,
    so it is kept when the call throws. *)
Definition initialize (this : FaceTracker.state) (config : option TrackingConfig.t)
    (faceMeshLoaded : bool) : completion unit * FaceTracker.state :=
  let trackingConfig :=
    match config with
    | Some c => c
    | None => {| TrackingConfig.minDetectionConfidence := 0.5;
                 TrackingConfig.minTrackingConfidence := 0.5;
                 TrackingConfig.directionThreshold := 0.15 |}
    end in
  let this1 :=
    {| FaceTracker.faceMesh := FaceTracker.faceMesh this;
       FaceTracker.ready := FaceTracker.ready this;
       FaceTracker.lastResult := FaceTracker.lastResult this;
       FaceTracker.directionThreshold := TrackingConfig.directionThreshold trackingConfig;
       FaceTracker.emojiMatcher := FaceTracker.emojiMatcher this |} in
  if negb faceMeshLoaded then
    (Throws (Error "MediaPipe FaceMesh not loaded. Ensure CDN scripts are included."), this1)
  else
    (Returns tt,
     {| FaceTracker.faceMesh := Some tt;
        FaceTracker.ready := true;
        FaceTracker.lastResult := FaceTracker.lastResult this1;
        FaceTracker.directionThreshold := FaceTracker.directionThreshold this1;
        FaceTracker.emojiMatcher := FaceTracker.emojiMatcher this1 |}).

(** The result [processFrame] returns while no result has been stored. *)
Definition emptyResult : FaceTracker.FaceTrackingResult :=
  {| FaceTracker.detected := false;
     FaceTracker.landmarks := [];
     FaceTracker.direction := CENTER;
     FaceTracker.confidence := 0;
     FaceTracker.emoji := None;
     FaceTracker.expression := None |}.

(** [processFrame]. The awaited [send] is the external model at work:
    [delivered] lists the results with which it calls the [onResults]
    callback meanwhile (one per frame in normal operation, none when it has
    nothing to report), and [rejection] is the error with which its promise
    rejects, [None] when it resolves. A rejected [send] makes [processFrame]
    reject with the same error (the caller's [.catch] receives it), after
    the callbacks already made. A throw of the callback itself would
    surface from [send] too; the state is then the one [handleAll] had
    reached, which this model does not keep: that branch is never taken
    (see [handleAll_returns]). *)
Definition processFrame (this : FaceTracker.state)
    (delivered : list (option (list (list FaceTracker.NormalizedLandmark))))
    (rejection : option exception)
    : completion FaceTracker.FaceTrackingResult * FaceTracker.state :=
  if negb (FaceTracker.ready this)
     || match FaceTracker.faceMesh this with None => true | Some _ => false end then
    (Throws (Error "FaceTracker not initialized. Call initialize() first."), this)
  else
    match FaceTracker.handleAll this delivered with
    | TypeError => (Throws UncaughtTypeError, this)
    | Ok this' =>
        match rejection with
        | Some e => (Throws e, this')
        | None =>
            match FaceTracker.lastResult this' with
            | Some result => (Returns result, this')
            | None => (Returns emptyResult, this')
            end
        end
    end.

Definition isReady (this : FaceTracker.state) : bool := FaceTracker.ready this.

(** [dispose]; closing the external model is taken to return normally. *)
Definition dispose (this : FaceTracker.state) : FaceTracker.state :=
  {| FaceTracker.faceMesh := None;
     FaceTracker.ready := false;
     FaceTracker.lastResult := None;
     FaceTracker.directionThreshold := FaceTracker.directionThreshold this;
     FaceTracker.emojiMatcher := FaceTracker.emojiMatcher this |}.

(** The shape of every result the tracker stores or returns: without a
    face it is the fixed record; with a face the confidence is 1, the
    glyph is the glyph of the expression, and a face of fewer than 468
    points is reported as CENTER and NEUTRAL. *)
Definition wellFormed (r : FaceTracker.FaceTrackingResult) : Prop :=
  if FaceTracker.detected r then
    FaceTracker.confidence r = 1 /\
    exists e,
      FaceTracker.expression r = Some e /\
      FaceTracker.emoji r = Some (EmojiMatcher.emojiMap e) /\
      ((length (FaceTracker.landmarks r) < 468)%nat ->
         FaceTracker.direction r = CENTER /\ e = EmojiMatcher.NEUTRAL)
  else
    r = emptyResult.

End FaceTrackerLifecycle.

(** The landmarks that [handleResults] builds from a face of the model. *)
Definition converted (faceLandmarks : list FaceTracker.NormalizedLandmark) : list Landmark :=
  map (fun lm => {| x := FaceTracker.lm_x lm;
                    y := FaceTracker.lm_y lm;
                    z := JS.or_zero (FaceTracker.lm_z lm) |}) faceLandmarks.



(* ================================================================== *)
(** ** AppConfig.ts *)
(* ================================================================== *)

Module AppConfig.

(** [DEFAULT_CONFIG.tracking]. *)
Definition tracking : TrackingConfig.t :=
  {| TrackingConfig.minDetectionConfidence := 0.5;
     TrackingConfig.minTrackingConfidence := 0.5;
     TrackingConfig.directionThreshold := 0.05 |}.

(** [DEFAULT_CONFIG.borders]. *)
Definition borders (direction : HeadDirection) : string :=
  match direction with
  | CENTER => "#667eea"
  | LEFT => "#2196F3"
  | RIGHT => "#FF9800"
  | UP => "#9C27B0"
  | DOWN => "#F44336"
  end%string.

(** [DEFAULT_CONFIG.rendering.landmarkColor] and [landmarkRadius]. *)
Definition landmarkColor : string := "#00FF00"%string.
Definition landmarkRadius : number := 2.

End AppConfig.

(* ================================================================== *)
(** ** RenderingEngine.ts *)
(* ================================================================== *)

Module RenderingEngine.

(** A call made on the 2D context of the overlay canvas. The image passed
    to [drawImage] is the video element, which is not looked into. *)
Inductive CanvasOp : Set :=
| DrawImage (dx dy dWidth dHeight : number)
| ClearRect (cx cy w h : number)
| SetFillStyle (color : string)
| BeginPath
| Arc (cx cy radius startAngle endAngle : number)
| Fill.

(** A canvas element: its size, and its 2D context as the list of the
    calls made on it so far, oldest first ([None] when [getContext('2d')]
    returns [null]). *)
Record Canvas : Set := mkCanvas {
  width : number;
  height : number;
  getContext2d : option (list CanvasOp)
}.

(** The element whose border is coloured: its [style.borderColor]. *)
Record Element : Set := mkElement { borderColor : string }.

(** [interface RenderingConfig]; a [BorderColorMap] has one colour for
    each of the five directions. *)
Record RenderingConfig : Type := mkRenderingConfig {
  config_landmarkColor : string;
  config_landmarkRadius : number;
  config_borderColors : HeadDirection -> string
}.

Record state : Type := mkState {
  overlayCanvas : option Canvas;
  overlayContext : option (list CanvasOp);
  borderElement : option Element;
  borderColors : HeadDirection -> string;
  landmarkColor : string;
  landmarkRadius : number
}.

(** The instance as the field initialisers leave it. *)
Definition initial : state :=
  {| overlayCanvas := None;
     overlayContext := None;
     borderElement := None;
     borderColors := fun direction =>
       match direction with
       | CENTER => "#667eea"
       | LEFT => "#2196F3"
       | RIGHT => "#FF9800"
       | UP => "#9C27B0"
       | DOWN => "#F44336"
       end%string;
     landmarkColor := "#00FF00";
     landmarkRadius := 2 |}.

Definition updateBorder (this : state) (direction : HeadDirection) : state :=
  match borderElement this with
  | None => this
  | Some _ =>
      let color := borderColors this direction in
      {| overlayCanvas := overlayCanvas this;
         overlayContext := overlayContext this;
         borderElement := Some {| borderColor := color |};
         borderColors := borderColors this;
         landmarkColor := landmarkColor this;
         landmarkRadius := landmarkRadius this |}
  end.

Definition initialize (this : state) (canvas : Canvas) (element : Element)
    (config : option RenderingConfig) : completion unit * state :=
  let this1 :=
    {| overlayCanvas := Some canvas;
       overlayContext := overlayContext this;
       borderElement := Some element;
       borderColors := borderColors this;
       landmarkColor := landmarkColor this;
       landmarkRadius := landmarkRadius this |} in
  let this2 :=
    match config with
    | Some c =>
        {| overlayCanvas := overlayCanvas this1;
           overlayContext := overlayContext this1;
           borderElement := borderElement this1;
           borderColors := config_borderColors c;
           landmarkColor := config_landmarkColor c;
           landmarkRadius := config_landmarkRadius c |}
    | None => this1
    end in
  let this3 :=
    {| overlayCanvas := overlayCanvas this2;
       overlayContext := getContext2d canvas;
       borderElement := borderElement this2;
       borderColors := borderColors this2;
       landmarkColor := landmarkColor this2;
       landmarkRadius := landmarkRadius this2 |} in
  match overlayContext this3 with
  | None => (Throws (Error "Failed to get 2D rendering context from canvas element"), this3)
  | Some _ => (Returns tt, updateBorder this3 CENTER)
  end.

Definition keyLandmarkIndices : list nat :=
  [ (* Nose *)
    1; 2; 98; 327;
    (* Left eye *)
    33; 7; 163; 144; 145; 153; 154; 155; 133; 173; 157; 158; 159; 160; 161; 246;
    (* Right eye *)
    362; 382; 381; 380; 374; 373; 390; 249; 263; 466; 388; 387; 386; 385; 384; 398;
    (* Left eyebrow *)
    70; 63; 105; 66; 107; 55; 65; 52; 53; 46;
    (* Right eyebrow *)
    300; 293; 334; 296; 336; 285; 295; 282; 283; 276;
    (* Mouth outer *)
    61; 185; 40; 39; 37; 0; 267; 269; 270; 409; 291;
    308; 415; 310; 311; 312; 13; 82; 81; 80; 191; 78;
    (* Mouth inner *)
    78; 95; 88; 178; 87; 14; 317; 402; 318; 324; 308;
    (* Face outline *)
    10; 338; 297; 332; 284; 251; 389; 356; 454; 323; 361; 288;
    397; 365; 379; 378; 400; 377; 152; 148; 176; 149; 150; 136;
    172; 58; 132; 93; 234; 127; 162; 21; 54; 103; 67; 109;
    (* Cheeks *)
    205; 425; 206; 203; 36; 266; 423; 426;
    (* Chin *)
    152; 175; 171; 140; 194; 201; 200; 421; 418; 369; 395; 394 ]%nat.

(** [Math.PI]. *)
Definition PI : number := 3.141592653589793.

(** One round of the [for ... of] loop of [drawLandmarks]: [acc] is the
    context after the rounds before (or the exception already thrown). *)
Definition drawLandmarkStep (this : state) (landmarks : list Landmark)
    (canvasWidth canvasHeight : number)
    (acc : outcome (list CanvasOp)) (index : nat) : outcome (list CanvasOp) :=
  let* context := acc in
  if Nat.ltb index (length landmarks) then
    let landmark := landmarks[[index]] in
    let* landmark_x := prop_x landmark in
    let x := landmark_x * canvasWidth in
    let* landmark_y := prop_y landmark in
    let y := landmark_y * canvasHeight in
    Ok (context ++ [BeginPath; Arc x y (landmarkRadius this) 0 (2 * PI); Fill])
  else
    Ok context.

Definition drawLandmarks (this : state) (landmarks : list Landmark)
    (context : list CanvasOp) : outcome (list CanvasOp) :=
  match overlayCanvas this with
  | None => Ok context
  | Some canvas =>
      let canvasWidth := width canvas in
      let canvasHeight := height canvas in
      let context := context ++ [SetFillStyle (landmarkColor this)] in
      fold_left (drawLandmarkStep this landmarks canvasWidth canvasHeight)
                keyLandmarkIndices (Ok context)
  end.

(** A thrown [TypeError] would leave the calls made before it on the
    context; [drawLandmarks] never throws (see [drawLandmarks_returns]), so
    that state is not spelled out. *)
Definition renderFrame (this : state) (trackingResult : FaceTracker.FaceTrackingResult)
    : completion unit * state :=
  match overlayContext this, overlayCanvas this with
  | Some context, Some canvas =>
      let context := context ++ [DrawImage 0 0 (width canvas) (height canvas)] in
      let drawn :=
        if FaceTracker.detected trackingResult
           && Nat.ltb 0 (length (FaceTracker.landmarks trackingResult)) then
          drawLandmarks this (FaceTracker.landmarks trackingResult) context
        else Ok context in
      match drawn with
      | TypeError => (Throws UncaughtTypeError, this)
      | Ok context' =>
          (Returns tt,
           updateBorder
             {| overlayCanvas := overlayCanvas this;
                overlayContext := Some context';
                borderElement := borderElement this;
                borderColors := borderColors this;
                landmarkColor := landmarkColor this;
                landmarkRadius := landmarkRadius this |}
             (FaceTracker.direction trackingResult))
      end
  | _, _ =>
      (Throws (Error "RenderingEngine not initialized. Call initialize() first."), this)
  end.

Definition clear (this : state) : state :=
  match overlayContext this, overlayCanvas this with
  | Some context, Some canvas =>
      {| overlayCanvas := overlayCanvas this;
         overlayContext := Some (context ++ [ClearRect 0 0 (width canvas) (height canvas)]);
         borderElement := borderElement this;
         borderColors := borderColors this;
         landmarkColor := landmarkColor this;
         landmarkRadius := landmarkRadius this |}
  | _, _ => this
  end.

(** [renderFrame] called for one tracking result after another, as the
    render loop does, up to the first call that throws. *)
Fixpoint renderAll (this : state) (results : list FaceTracker.FaceTrackingResult)
    : completion unit * state :=
  match results with
  | [] => (Returns tt, this)
  | trackingResult :: rest =>
      match renderFrame this trackingResult with
      | (Returns _, this') => renderAll this' rest
      | (Throws e, this') => (Throws e, this')
      end
  end.

(** The circles among the calls made on a context. *)
Definition circles (context : list CanvasOp) : list CanvasOp :=
  filter (fun op => match op with Arc _ _ _ _ _ => true | _ => false end) context.

(** The key indices for which [drawLandmarks] draws a circle: those
    below the length of the frame. *)
Definition visibleIndices (landmarks : list Landmark) : list nat :=
  filter (fun index => Nat.ltb index (length landmarks)) keyLandmarkIndices.

(** The configuration main.ts passes to [initialize]. *)
Definition defaultConfig : RenderingConfig :=
  {| config_landmarkColor := AppConfig.landmarkColor;
     config_landmarkRadius := AppConfig.landmarkRadius;
     config_borderColors := AppConfig.borders |}.

End RenderingEngine.

(* ================================================================== *)
(** ** main.ts: the emoji counters of updateUI *)
(* ================================================================== *)

Module Main.

(** The three module-level variables that [updateUI] keeps. An object
    with string keys is the list of its own properties in insertion order. *)
Record vars : Set := mkVars {
  emojiCounts : list (string * number);
  lastExpression : string;
  lastRecognitionTime : number
}.

Definition initial : vars :=
  {| emojiCounts :=
       [ ("neutral", 0); ("happy", 0); ("very_happy", 0); ("sad", 0);
         ("surprised", 0); ("angry", 0); ("wink", 0); ("kiss", 0);
         ("tongue_out", 0); ("thinking", 0); ("sleepy", 0); ("confused", 0) ]%string;
     lastExpression := "";
     lastRecognitionTime := 0 |}.

Definition RECOGNITION_INTERVAL : number := 1000.

(** [o.hasOwnProperty(key)]. *)
Fixpoint hasOwnProperty (o : list (string * number)) (key : string) : bool :=
  match o with
  | [] => false
  | (k, _) :: rest => if String.eqb k key then true else hasOwnProperty rest key
  end.

(** [o[key]] for a property that may be missing. *)
Fixpoint get (o : list (string * number)) (key : string) : option number :=
  match o with
  | [] => None
  | (k, n) :: rest => if String.eqb k key then Some n else get rest key
  end.

(** [o[key]++] for an own property [key] (the only use in [updateUI] is
    guarded by [hasOwnProperty]; without the property the list is kept). *)
Fixpoint increment (o : list (string * number)) (key : string) : list (string * number) :=
  match o with
  | [] => []
  | (k, n) :: rest =>
      if String.eqb k key then (k, n + 1) :: rest else (k, n) :: increment rest key
  end.

(** The counter block of [updateUI] (the [if] on [state.expression]), as
    a function of the module variables, of [state.expression] ([None] when
    the property is missing) and of [Date.now()]. The writes to the page in
    that block and around it touch none of the three variables and are not
    modelled. *)
Definition countExpression (v : vars) (expression : option string) (currentTime : number)
    : vars :=
  match expression with
  | None => v
  | Some e =>
      if negb (String.eqb e "")
         && negb (String.eqb e (lastExpression v))
         && (currentTime - lastRecognitionTime v >=? RECOGNITION_INTERVAL) then
        if hasOwnProperty (emojiCounts v) e then
          {| emojiCounts := increment (emojiCounts v) e;
             lastExpression := e;
             lastRecognitionTime := currentTime |}
        else
          {| emojiCounts := emojiCounts v;
             lastExpression := e;
             lastRecognitionTime := currentTime |}
      else v
  end.

(** [updateUI] run once per animation frame: the block applied to the
    successive application states and clock readings. *)
Definition countAll (v : vars) (frames : list (option string * number)) : vars :=
  fold_left (fun v frame => countExpression v (fst frame) (snd frame)) frames v.

End Main.

(* ================================================================== *)
(** ** More frames of the examples *)
(* ================================================================== *)

Module Fixtures.

(** An engine as main.ts sets it up: a 640 x 480 canvas with a fresh 2D
    context, a border element, the default configuration. *)
Definition engine : RenderingEngine.state :=
  snd (RenderingEngine.initialize RenderingEngine.initial
         {| RenderingEngine.width := 640;
            RenderingEngine.height := 480;
            RenderingEngine.getContext2d := Some [] |}
         {| RenderingEngine.borderColor := "" |}
         (Some RenderingEngine.defaultConfig)).

(** A detected face looking up, with the landmarks of the mock frame. *)
Definition lookingUp : FaceTracker.FaceTrackingResult :=
  {| FaceTracker.detected := true;
     FaceTracker.landmarks := Tests.createMockLandmarks 0.5 0.3;
     FaceTracker.direction := UP;
     FaceTracker.confidence := 1;
     FaceTracker.emoji := Some (EmojiMatcher.emojiMap EmojiMatcher.SLEEPY);
     FaceTracker.expression := Some EmojiMatcher.SLEEPY |}.

(** A face as the model reports it: the points of the mock frame, with
    their depth given. *)
Definition face : list FaceTracker.NormalizedLandmark :=
  map (fun p => {| FaceTracker.lm_x := x p; FaceTracker.lm_y := y p;
                   FaceTracker.lm_z := Some (z p) |})
      (Tests.createMockLandmarks 0.7 0.5).

(** A tracker in the middle of a session: ready, with the result of the
    frame before in store. *)
Definition tracking : FaceTracker.state :=
  {| FaceTracker.faceMesh := Some tt;
     FaceTracker.ready := true;
     FaceTracker.lastResult := Some lookingUp;
     FaceTracker.directionThreshold := 0.05;
     FaceTracker.emojiMatcher :=
       {| EmojiMatcher.lastExpression := EmojiMatcher.SLEEPY;
          EmojiMatcher.expressionStability := 0 |} |}.

End Fixtures.

(* ================================================================== *)
(** ** Basic facts *)
(* ================================================================== *)

Import EmojiMatcher.

Lemma Expression_eqb_eq (a b : Expression) : Expression_eqb a b = true <-> a = b.
Proof. split; [ destruct a, b; simpl; congruence | intros ->; destruct b; reflexivity ]. Qed.

Lemma Expression_eqb_neq (a b : Expression) : Expression_eqb a b = false <-> a <> b.
Proof.
  rewrite <- Expression_eqb_eq.
  destruct (Expression_eqb a b); split; congruence.
Qed.

(** An index below the length reads a landmark. *)
Lemma read_in_range (landmarks : list Landmark) (i : nat) :
  (i < length landmarks)%nat -> exists p, landmarks[[i]] = Some p.
Proof.
  intros H. destruct (nth_error landmarks i) eqn:E; [ eauto | ].
  apply nth_error_None in E. lia.
Qed.

(** Reading below the cut of a truncated frame reads the frame itself. *)
Lemma read_firstn (landmarks : list Landmark) (n i : nat) :
  Nat.ltb i n = true -> (firstn n landmarks)[[i]] = landmarks[[i]].
Proof. intros H. rewrite nth_error_firstn, H. reflexivity. Qed.

(** The length guard of both classifiers. *)
Lemma guard_short (landmarks : list Landmark) :
  (length landmarks < 468)%nat -> Nat.ltb (length landmarks) 468 = true.
Proof. intros H. apply Nat.ltb_lt. exact H. Qed.

Lemma guard_long (landmarks : list Landmark) :
  (468 <= length landmarks)%nat -> Nat.ltb (length landmarks) 468 = false.
Proof. intros H. apply Nat.ltb_ge. exact H. Qed.

(** Replace every array read in the goal by the landmark it yields, for a
    frame known to hold more than 398 points. *)
Ltac read_all H :=
  repeat match goal with
  | |- context [nth_error ?l ?i] =>
      let p := fresh "p" in
      let E := fresh "E" in
      destruct (read_in_range l i) as [p E];
      [ clear - H; lia | rewrite !E ]
  end.

Ltac unfold_metrics :=
  cbv [calculateMetrics calculateMouthOpenness calculateSmileLevel calculateEyebrowRaise
       calculateEyeOpenness calculateMouthWidth calculateLipsPucker calculateHeadTilt
       eyeOpennessStep fold_left seq Nat.min length nth].

(** Past the guard every metric is computed: no read is out of range. *)
Lemma calculateMetrics_ok (landmarks : list Landmark) :
  (399 <= length landmarks)%nat -> exists m, calculateMetrics landmarks = Ok m.
Proof.
  intros H. unfold_metrics. read_all H. cbn [prop_x prop_y bind]. eauto.
Qed.

Lemma calculateMetrics_firstn (landmarks : list Landmark) :
  calculateMetrics (firstn 399 landmarks) = calculateMetrics landmarks.
Proof.
  unfold_metrics. rewrite !read_firstn by reflexivity. reflexivity.
Qed.

Lemma rawClassification_ok (landmarks : list Landmark) :
  (399 <= length landmarks)%nat ->
  exists m, calculateMetrics landmarks = Ok m /\ rawClassification landmarks = Ok (detect m).
Proof.
  intros H. destruct (calculateMetrics_ok landmarks H) as [m E].
  exists m. split; [ exact E | ]. unfold rawClassification. rewrite E. reflexivity.
Qed.

Lemma directionPastGuard_ok (this : FaceTracker.state) (landmarks : list Landmark) :
  (399 <= length landmarks)%nat ->
  exists d, FaceTracker.directionPastGuard this landmarks = Ok d.
Proof.
  intros H. unfold FaceTracker.directionPastGuard. read_all H. cbn [prop_x prop_y bind].
  repeat match goal with |- context [if ?c then _ else _] => destruct c end; eauto.
Qed.

Lemma directionPastGuard_firstn (this : FaceTracker.state) (landmarks : list Landmark) :
  FaceTracker.directionPastGuard this (firstn 399 landmarks)
  = FaceTracker.directionPastGuard this landmarks.
Proof.
  unfold FaceTracker.directionPastGuard. rewrite !read_firstn by reflexivity. reflexivity.
Qed.

(* ================================================================== *)
(** ** The degraded path: frames with fewer than 468 points *)
(* ================================================================== *)

(** C6. On a frame with fewer than 468 points, whatever the tracker (so
    whatever its threshold) and whatever the matcher's rolling state,
    [calculateDirection] returns CENTER and [analyzeExpression] returns
    NEUTRAL with its glyph and confidence 0; both return normally, neither
    throws. *)
Theorem short_frame_defaults
    (tracker : FaceTracker.state) (matcher : state) (landmarks : list Landmark) :
  (length landmarks < 468)%nat ->
  FaceTracker.calculateDirection tracker landmarks = Ok CENTER /\
  exists matcher',
    analyzeExpression matcher landmarks
    = Ok ({| expression := NEUTRAL; emoji := emojiMap NEUTRAL; confidence := 0 |}, matcher').
Proof.
  intros H. apply guard_short in H.
  unfold FaceTracker.calculateDirection, analyzeExpression. rewrite H.
  split; [ reflexivity | eexists; reflexivity ].
Qed.

Lemma short_frame_defaults_witness :
  FaceTracker.calculateDirection (Tests.trackerWith 0.15) Tests.hundredLandmarks = Ok CENTER /\
  exists matcher',
    analyzeExpression {| lastExpression := HAPPY; expressionStability := 1 |} Tests.hundredLandmarks
    = Ok ({| expression := NEUTRAL; emoji := emojiMap NEUTRAL; confidence := 0 |}, matcher').
Proof.
  apply (short_frame_defaults (Tests.trackerWith 0.15)
           {| lastExpression := HAPPY; expressionStability := 1 |} Tests.hundredLandmarks).
  vm_compute. lia.
Defined.

(** C9. On a frame with fewer than 468 points [analyzeExpression] leaves
    the rolling state exactly as it found it. *)
Theorem short_frame_keeps_state (matcher : state) (landmarks : list Landmark) :
  (length landmarks < 468)%nat ->
  exists result, analyzeExpression matcher landmarks = Ok (result, matcher).
Proof.
  intros H. apply guard_short in H.
  unfold analyzeExpression. rewrite H. eexists. reflexivity.
Qed.

Lemma short_frame_keeps_state_witness :
  exists result,
    analyzeExpression {| lastExpression := SURPRISED; expressionStability := 7 |} []
    = Ok (result, {| lastExpression := SURPRISED; expressionStability := 7 |}).
Proof.
  apply (short_frame_keeps_state {| lastExpression := SURPRISED; expressionStability := 7 |} []).
  simpl. lia.
Defined.

(* ================================================================== *)
(** ** The expression classifier on full frames *)
(* ================================================================== *)

(** The ladder picks the first rule of the table that applies. *)
Lemma detect_firstMatch (m : Metrics) : fst (detect m) = Spec.firstMatch Spec.ruleTable m.
Proof.
  unfold detect.
  cbv [Spec.firstMatch Spec.ruleTable Spec.winkRule Spec.kissRule Spec.surprisedRule
       Spec.tongueOutRule Spec.veryHappyRule Spec.happyRule Spec.sadRule Spec.thinkingRule
       Spec.sleepyRule Spec.confusedRule Spec.angryRule Spec.asymmetry].
  repeat match goal with
         | |- context [if ?c then _ else _] => destruct c; [ reflexivity | ]
         end.
  reflexivity.
Qed.

(** C2. On a frame with at least 468 points the eight metrics are computed
    and the raw classification (what the stability filter is then fed) is
    the label of the first rule that applies to them, in the order WINK,
    KISS, SURPRISED, TONGUE_OUT, VERY_HAPPY, HAPPY, SAD, THINKING, SLEEPY,
    CONFUSED, ANGRY with the thresholds of the table, and NEUTRAL when none
    applies. *)
Theorem rawClassification_first_match (landmarks : list Landmark) :
  (468 <= length landmarks)%nat ->
  exists m conf,
    calculateMetrics landmarks = Ok m /\
    rawClassification landmarks = Ok (Spec.firstMatch Spec.ruleTable m, conf).
Proof.
  intros H.
  destruct (rawClassification_ok landmarks) as (m & Em & Er); [ lia | ].
  exists m, (snd (detect m)). split; [ exact Em | ].
  rewrite Er, <- detect_firstMatch. destruct (detect m); reflexivity.
Qed.

Lemma rawClassification_first_match_witness :
  exists m conf,
    calculateMetrics (Tests.createMockLandmarks 0.5 0.5) = Ok m /\
    rawClassification (Tests.createMockLandmarks 0.5 0.5)
    = Ok (Spec.firstMatch Spec.ruleTable m, conf).
Proof.
  apply (rawClassification_first_match (Tests.createMockLandmarks 0.5 0.5)).
  apply Nat.leb_le. vm_compute. reflexivity.
Defined.

(** The smoothing block in closed form. *)
Lemma smooth_spec (this : state) (fresh : Expression) :
  Spec.counterAfter this fresh (expressionStability (smooth this fresh)) /\
  Spec.committedAfter this fresh (expressionStability (smooth this fresh))
                      (lastExpression (smooth this fresh)).
Proof.
  unfold Spec.counterAfter, Spec.committedAfter, smooth.
  destruct (Expression_eqb fresh (lastExpression this)) eqn:E;
    cbn [lastExpression expressionStability]; rewrite E; cbn [negb].
  - apply Expression_eqb_eq in E.
    destruct (expressionStability this + 1 >=? 2) eqn:G;
      cbn [orb lastExpression expressionStability]; rewrite ?G; intuition congruence.
  - apply Expression_eqb_neq in E.
    rewrite orb_true_r. cbn [lastExpression expressionStability]. intuition congruence.
Qed.

(** C1. On a frame with at least 468 points, from any rolling state: the
    call classifies a fresh label with its confidence; the counter becomes
    the old counter plus one when the fresh label equals the last committed
    label and 0 otherwise; the committed label becomes the fresh label when
    the new counter is at least 2 or the fresh label differs from the
    previously committed one, and is otherwise kept; and the result reports
    the committed label after this update with that label's glyph and the
    confidence of this call's classification. *)
Theorem analyzeExpression_stability_filter (this : state) (landmarks : list Landmark) :
  (468 <= length landmarks)%nat ->
  exists fresh conf result this',
    rawClassification landmarks = Ok (fresh, conf) /\
    analyzeExpression this landmarks = Ok (result, this') /\
    Spec.counterAfter this fresh (expressionStability this') /\
    Spec.committedAfter this fresh (expressionStability this') (lastExpression this') /\
    expression result = lastExpression this' /\
    emoji result = emojiMap (lastExpression this') /\
    confidence result = conf.
Proof.
  intros H.
  destruct (rawClassification_ok landmarks) as (m & _ & Er); [ lia | ].
  destruct (detect m) as [fresh conf].
  exists fresh, conf. do 2 eexists.
  split; [ exact Er | ].
  unfold analyzeExpression. rewrite (guard_long _ H), Er. cbn [bind].
  split; [ reflexivity | ].
  destruct (smooth_spec this fresh) as [Hc Hl].
  cbn [expression emoji confidence]. auto.
Qed.

Lemma analyzeExpression_stability_filter_witness :
  exists fresh conf result this',
    rawClassification (Tests.createMockLandmarks 0.5 0.5) = Ok (fresh, conf) /\
    analyzeExpression initial (Tests.createMockLandmarks 0.5 0.5) = Ok (result, this') /\
    Spec.counterAfter initial fresh (expressionStability this') /\
    Spec.committedAfter initial fresh (expressionStability this') (lastExpression this') /\
    expression result = lastExpression this' /\
    emoji result = emojiMap (lastExpression this') /\
    confidence result = conf.
Proof.
  apply (analyzeExpression_stability_filter initial (Tests.createMockLandmarks 0.5 0.5)).
  apply Nat.leb_le. vm_compute. reflexivity.
Defined.

(* ================================================================== *)
(** ** Comparisons of binary64 numbers *)
(* ================================================================== *)

(** No number is below itself (NaN is not comparable at all). *)
Lemma SFltb_irrefl (a : spec_float) : SFltb a a = false.
Proof.
  unfold SFltb. destruct a as [s | s | | s m e]; simpl; try destruct s; try reflexivity;
    rewrite Z.compare_refl, Pos.compare_cont_refl; reflexivity.
Qed.

(** Two numbers that [===] finds equal are not ordered by [<]. *)
Lemma SFeqb_not_ltb (a b : spec_float) : SFeqb a b = true -> SFltb b a = false.
Proof.
  unfold SFeqb, SFltb.
  destruct a as [s1 | s1 | | s1 m1 e1], b as [s2 | s2 | | s2 m2 e2]; simpl;
    try destruct s1; try destruct s2; simpl; try congruence;
    destruct (Z.compare_spec e1 e2) as [He | He | He]; try congruence; subst;
    rewrite Z.compare_refl, Pos.compare_cont_spec; simpl;
    destruct (Pos.compare_spec m1 m2) as [Hm | Hm | Hm]; simpl; try congruence; subst;
    rewrite Pos.compare_cont_refl; reflexivity.
Qed.

Lemma eqb_not_ltb (a b : number) : (a =? b) = true -> (b <? a) = false.
Proof. rewrite FloatAxioms.eqb_spec, FloatAxioms.ltb_spec. apply SFeqb_not_ltb. Qed.


(* ================================================================== *)
(** ** The direction classifier on full frames *)
(* ================================================================== *)

(** [calculateDirection] on a full frame, in terms of the two offsets. *)
Lemma calculateDirection_offsets
    (this : FaceTracker.state) (landmarks : list Landmark)
    (noseTip leftEye rightEye chin : Landmark) :
  (468 <= length landmarks)%nat ->
  landmarks[[1]] = Some noseTip ->
  landmarks[[33]] = Some leftEye ->
  landmarks[[263]] = Some rightEye ->
  landmarks[[152]] = Some chin ->
  let h := Spec.horizontalOffset noseTip leftEye rightEye in
  let v := Spec.verticalOffset noseTip leftEye rightEye chin in
  let threshold := FaceTracker.directionThreshold this in
  FaceTracker.calculateDirection this landmarks
  = Ok (if Spec.horizontalWins h v then
          if h >? threshold then LEFT
          else if h <? - threshold then RIGHT
          else CENTER
        else
          if v >? threshold then DOWN
          else if v <? - threshold then UP
          else CENTER).
Proof.
  intros H E1 E33 E263 E152. cbv zeta.
  unfold FaceTracker.calculateDirection, FaceTracker.directionPastGuard.
  rewrite (guard_long _ H), E1, E33, E263, E152. cbn [prop_x prop_y bind].
  unfold Spec.horizontalWins, Spec.horizontalOffset, Spec.verticalOffset,
         Spec.faceCenterX, Spec.faceCenterY.
  repeat match goal with |- context [if ?c then _ else _] => destruct c end; reflexivity.
Qed.

(** The four reference points of a full frame. *)
Lemma reference_points (landmarks : list Landmark) :
  (468 <= length landmarks)%nat ->
  exists noseTip leftEye rightEye chin,
    landmarks[[1]] = Some noseTip /\
    landmarks[[33]] = Some leftEye /\
    landmarks[[263]] = Some rightEye /\
    landmarks[[152]] = Some chin.
Proof.
  intros H.
  destruct (read_in_range landmarks 1) as [p1 E1]; [ lia | ].
  destruct (read_in_range landmarks 33) as [p33 E33]; [ lia | ].
  destruct (read_in_range landmarks 263) as [p263 E263]; [ lia | ].
  destruct (read_in_range landmarks 152) as [p152 E152]; [ lia | ].
  exists p1, p33, p263, p152. auto.
Qed.

(** The two tests of an axis are an if / else-if chain, whatever number the
    threshold is: when the horizontal axis wins, an offset above the
    threshold yields LEFT and, failing that, an offset below the opposite of
    the threshold yields RIGHT; when the vertical axis is the one tested,
    an offset above the threshold yields DOWN and, failing that, an offset
    below the opposite of the threshold yields UP; otherwise the result is
    CENTER. *)
Lemma calculateDirection_mapping_in_order
    (this : FaceTracker.state) (landmarks : list Landmark) :
  (468 <= length landmarks)%nat ->
  exists noseTip leftEye rightEye chin r,
    landmarks[[1]] = Some noseTip /\
    landmarks[[33]] = Some leftEye /\
    landmarks[[263]] = Some rightEye /\
    landmarks[[152]] = Some chin /\
    FaceTracker.calculateDirection this landmarks = Ok r /\
    Spec.mappingInOrder (Spec.horizontalOffset noseTip leftEye rightEye)
                        (Spec.verticalOffset noseTip leftEye rightEye chin)
                        (FaceTracker.directionThreshold this) r.
Proof.
  intros H.
  destruct (reference_points landmarks H) as (p1 & p33 & p263 & p152 & E1 & E33 & E263 & E152).
  exists p1, p33, p263, p152. eexists.
  repeat (split; [ eassumption | ]).
  split; [ apply (calculateDirection_offsets this landmarks p1 p33 p263 p152); assumption | ].
  unfold Spec.mappingInOrder.
  split; intros W; rewrite W; repeat split; intros; 
    repeat match goal with H : _ = _ |- _ => rewrite H end; reflexivity.
Qed.

Lemma calculateDirection_mapping_in_order_witness :
  exists noseTip leftEye rightEye chin r,
    (Tests.createMockLandmarks 0.3 0.5)[[1]] = Some noseTip /\
    (Tests.createMockLandmarks 0.3 0.5)[[33]] = Some leftEye /\
    (Tests.createMockLandmarks 0.3 0.5)[[263]] = Some rightEye /\
    (Tests.createMockLandmarks 0.3 0.5)[[152]] = Some chin /\
    FaceTracker.calculateDirection (Tests.trackerWith 0.15) (Tests.createMockLandmarks 0.3 0.5)
    = Ok r /\
    Spec.mappingInOrder (Spec.horizontalOffset noseTip leftEye rightEye)
                        (Spec.verticalOffset noseTip leftEye rightEye chin)
                        (FaceTracker.directionThreshold (Tests.trackerWith 0.15)) r.
Proof.
  apply (calculateDirection_mapping_in_order
           (Tests.trackerWith 0.15) (Tests.createMockLandmarks 0.3 0.5)).
  apply Nat.leb_le. vm_compute. reflexivity.
Defined.



(** C4 (as amended). On every frame of at least 468 points whose left eye
    (33) is at (0.4, 0.4), right eye (263) at (0.6, 0.4), chin (152) at
    (0.5, 0.7) and nose tip (1) at (0.7, 0.5), with threshold 0.15, the
    result is LEFT: the horizontal offset, about 0.2, is above 0.15 and a
    positive horizontal offset maps to LEFT. *)
Theorem worked_example_is_LEFT
    (this : FaceTracker.state) (landmarks : list Landmark) (z1 z33 z263 z152 : number) :
  (468 <= length landmarks)%nat ->
  landmarks[[1]] = Some {| x := 0.7; y := 0.5; z := z1 |} ->
  landmarks[[33]] = Some {| x := 0.4; y := 0.4; z := z33 |} ->
  landmarks[[263]] = Some {| x := 0.6; y := 0.4; z := z263 |} ->
  landmarks[[152]] = Some {| x := 0.5; y := 0.7; z := z152 |} ->
  FaceTracker.directionThreshold this = 0.15 ->
  FaceTracker.calculateDirection this landmarks = Ok LEFT.
Proof.
  intros H E1 E33 E263 E152 T.
  rewrite (calculateDirection_offsets this landmarks _ _ _ _ H E1 E33 E263 E152), T.
  vm_compute. reflexivity.
Qed.

Lemma worked_example_is_LEFT_witness :
  FaceTracker.calculateDirection (Tests.trackerWith 0.15) (Tests.createMockLandmarks 0.7 0.5)
  = Ok LEFT.
Proof.
  apply (worked_example_is_LEFT
           (Tests.trackerWith 0.15) (Tests.createMockLandmarks 0.7 0.5) 0 0 0 0).
  - apply Nat.leb_le. vm_compute. reflexivity.
  - vm_compute. reflexivity.
  - vm_compute. reflexivity.
  - vm_compute. reflexivity.
  - vm_compute. reflexivity.
  - reflexivity.
Defined.

(** The worked example on the frame of the test "should detect RIGHT when
    nose is to the right": the horizontal offset 0.7 - 0.5 is above 0.15
    and the vertical offset is 0, yet the result is not RIGHT. *)
Lemma worked_example_not_RIGHT :
  (Tests.createMockLandmarks 0.7 0.5)[[1]] = Some {| x := 0.7; y := 0.5; z := 0 |} /\
  (Tests.createMockLandmarks 0.7 0.5)[[33]] = Some {| x := 0.4; y := 0.4; z := 0 |} /\
  (Tests.createMockLandmarks 0.7 0.5)[[263]] = Some {| x := 0.6; y := 0.4; z := 0 |} /\
  (Tests.createMockLandmarks 0.7 0.5)[[152]] = Some {| x := 0.5; y := 0.7; z := 0 |} /\
  length (Tests.createMockLandmarks 0.7 0.5) = 468%nat /\
  FaceTracker.calculateDirection (Tests.trackerWith 0.15) (Tests.createMockLandmarks 0.7 0.5)
  <> Ok RIGHT.
Proof.
  do 5 (split; [ vm_compute; reflexivity | ]).
  vm_compute. intros H. discriminate H.
Qed.

(** The five frames of the direction tests, with the threshold 0.15: the
    nose tip at the centre, to the left (x = 0.3), to the right (x = 0.7),
    up (y = 0.3) and down (y = 0.7). *)
Example mock_frames_directions :
  FaceTracker.calculateDirection (Tests.trackerWith 0.15) (Tests.createMockLandmarks 0.5 0.5)
  = Ok CENTER /\
  FaceTracker.calculateDirection (Tests.trackerWith 0.15) (Tests.createMockLandmarks 0.3 0.5)
  = Ok RIGHT /\
  FaceTracker.calculateDirection (Tests.trackerWith 0.15) (Tests.createMockLandmarks 0.7 0.5)
  = Ok LEFT /\
  FaceTracker.calculateDirection (Tests.trackerWith 0.15) (Tests.createMockLandmarks 0.5 0.3)
  = Ok UP /\
  FaceTracker.calculateDirection (Tests.trackerWith 0.15) (Tests.createMockLandmarks 0.5 0.7)
  = Ok DOWN.
Proof. repeat split; vm_compute; reflexivity. Qed.

(** When the two offsets have equal magnitudes the horizontal axis does
    not win: the comparison is strict, and the vertical axis is tested. *)
Lemma tie_is_vertical (h v : number) :
  (abs h =? abs v) = true -> Spec.horizontalWins h v = false.
Proof. intros H. unfold Spec.horizontalWins, gtb. apply eqb_not_ltb. exact H. Qed.

Lemma calculateDirection_on_tie
    (this : FaceTracker.state) (landmarks : list Landmark)
    (noseTip leftEye rightEye chin : Landmark) :
  (468 <= length landmarks)%nat ->
  landmarks[[1]] = Some noseTip ->
  landmarks[[33]] = Some leftEye ->
  landmarks[[263]] = Some rightEye ->
  landmarks[[152]] = Some chin ->
  (abs (Spec.horizontalOffset noseTip leftEye rightEye)
   =? abs (Spec.verticalOffset noseTip leftEye rightEye chin)) = true ->
  FaceTracker.calculateDirection this landmarks
  = Ok (if Spec.verticalOffset noseTip leftEye rightEye chin
           >? FaceTracker.directionThreshold this then DOWN
        else if Spec.verticalOffset noseTip leftEye rightEye chin
                <? - FaceTracker.directionThreshold this then UP
        else CENTER).
Proof.
  intros H E1 E33 E263 E152 T.
  rewrite (calculateDirection_offsets this landmarks _ _ _ _ H E1 E33 E263 E152).
  rewrite (tie_is_vertical _ _ T). reflexivity.
Qed.

(** C5 (the code at the failing input). On the 468-point frame
    [createMockLandmarks 0.75 0.75] the face centre is (0.5, 0.5), both
    offsets are 0.25, above the threshold 0.15; the horizontal label for a
    positive offset is LEFT, and the code answers DOWN, the vertical one. *)
Theorem tie_answers_vertical_label :
  length (Tests.createMockLandmarks 0.75 0.75) = 468%nat /\
  Spec.horizontalOffset {| x := 0.75; y := 0.75; z := 0 |}
                        {| x := 0.4; y := 0.4; z := 0 |}
                        {| x := 0.6; y := 0.4; z := 0 |} = 0.25 /\
  Spec.verticalOffset {| x := 0.75; y := 0.75; z := 0 |}
                      {| x := 0.4; y := 0.4; z := 0 |}
                      {| x := 0.6; y := 0.4; z := 0 |}
                      {| x := 0.5; y := 0.7; z := 0 |} = 0.25 /\
  (Tests.createMockLandmarks 0.75 0.75)[[1]] = Some {| x := 0.75; y := 0.75; z := 0 |} /\
  (Tests.createMockLandmarks 0.75 0.75)[[33]] = Some {| x := 0.4; y := 0.4; z := 0 |} /\
  (Tests.createMockLandmarks 0.75 0.75)[[263]] = Some {| x := 0.6; y := 0.4; z := 0 |} /\
  (Tests.createMockLandmarks 0.75 0.75)[[152]] = Some {| x := 0.5; y := 0.7; z := 0 |} /\
  FaceTracker.calculateDirection (Tests.trackerWith 0.15) (Tests.createMockLandmarks 0.75 0.75)
  = Ok DOWN.
Proof. repeat split; vm_compute; reflexivity. Qed.

(* ================================================================== *)
(** ** The head-tilt metric *)
(* ================================================================== *)

(** [calculateHeadTilt] divides by the denominator of the specification. *)
Lemma calculateHeadTilt_denominator (landmarks : list Landmark) (leftEye rightEye : Landmark) :
  landmarks[[33]] = Some leftEye ->
  landmarks[[263]] = Some rightEye ->
  calculateHeadTilt landmarks
  = Ok ((y rightEye - y leftEye) / Spec.headTiltDenominator leftEye rightEye).
Proof.
  intros E33 E263. unfold calculateHeadTilt, Spec.headTiltDenominator.
  rewrite E33, E263. reflexivity.
Qed.

(** C7 (the code at the failing input). [profileLandmarks] has 468 points,
    all with x and y in [0,1]; its deltaX is -0.0001, the denominator
    [deltaX + 0.0001] is 0, and the division yields Infinity. *)
Theorem headTilt_divides_by_zero :
  length Tests.profileLandmarks = 468%nat /\
  forallb (fun p => Spec.normalized (x p) && Spec.normalized (y p)) Tests.profileLandmarks = true /\
  Tests.profileLandmarks[[33]] = Some {| x := 0.0001; y := 0.4; z := 0 |} /\
  Tests.profileLandmarks[[263]] = Some {| x := 0; y := 0.5; z := 0 |} /\
  Spec.headTiltDenominator {| x := 0.0001; y := 0.4; z := 0 |} {| x := 0; y := 0.5; z := 0 |} = 0 /\
  calculateHeadTilt Tests.profileLandmarks = Ok infinity.
Proof. repeat split; vm_compute; reflexivity. Qed.

(** The infinite tilt is the value of the [headTilt] metric that the
    THINKING rule then compares with 0.03. *)
Example profileLandmarks_metrics :
  exists m, calculateMetrics Tests.profileLandmarks = Ok m /\ headTilt m = infinity.
Proof. eexists. split; vm_compute; reflexivity. Qed.

(* ================================================================== *)
(** ** Purity of the direction classifier *)
(* ================================================================== *)

(** C8. [calculateDirection] is a function of the frame and of the
    configured threshold alone: two trackers with the same threshold,
    whatever their other fields (model handle, readiness, last result,
    expression smoothing state), give the same direction for the same
    frame. *)
Theorem calculateDirection_deterministic
    (this this' : FaceTracker.state) (landmarks : list Landmark) :
  FaceTracker.directionThreshold this' = FaceTracker.directionThreshold this ->
  FaceTracker.calculateDirection this' landmarks = FaceTracker.calculateDirection this landmarks.
Proof.
  intros T. unfold FaceTracker.calculateDirection, FaceTracker.directionPastGuard.
  rewrite T. reflexivity.
Qed.

Lemma calculateDirection_deterministic_witness :
  FaceTracker.calculateDirection
    {| FaceTracker.faceMesh := None;
       FaceTracker.ready := false;
       FaceTracker.lastResult := None;
       FaceTracker.directionThreshold := 0.15;
       FaceTracker.emojiMatcher := {| lastExpression := WINK; expressionStability := 3 |} |}
    (Tests.createMockLandmarks 0.5 0.3)
  = FaceTracker.calculateDirection (Tests.trackerWith 0.15) (Tests.createMockLandmarks 0.5 0.3).
Proof.
  apply (calculateDirection_deterministic
           (Tests.trackerWith 0.15)
           {| FaceTracker.faceMesh := None;
              FaceTracker.ready := false;
              FaceTracker.lastResult := None;
              FaceTracker.directionThreshold := 0.15;
              FaceTracker.emojiMatcher := {| lastExpression := WINK; expressionStability := 3 |} |}
           (Tests.createMockLandmarks 0.5 0.3)).
  reflexivity.
Defined.

(** Neither classifier ever throws. *)
Lemma calculateDirection_total (this : FaceTracker.state) (landmarks : list Landmark) :
  exists d, FaceTracker.calculateDirection this landmarks = Ok d.
Proof.
  unfold FaceTracker.calculateDirection.
  destruct (Nat.ltb (length landmarks) 468) eqn:G; [ eauto | ].
  apply Nat.ltb_ge in G. apply directionPastGuard_ok. lia.
Qed.

Lemma analyzeExpression_total (this : state) (landmarks : list Landmark) :
  exists result this', analyzeExpression this landmarks = Ok (result, this').
Proof.
  unfold analyzeExpression.
  destruct (Nat.ltb (length landmarks) 468) eqn:G; [ eauto | ].
  apply Nat.ltb_ge in G.
  destruct (rawClassification_ok landmarks) as (m & _ & Er); [ lia | ].
  rewrite Er. cbn [bind]. destruct (detect m). eauto.
Qed.

(** The results callback returns normally and never touches the threshold. *)
Lemma handleResults_threshold
    (this : FaceTracker.state)
    (results : option (list (list FaceTracker.NormalizedLandmark))) :
  exists this',
    FaceTracker.handleResults this results = Ok this' /\
    FaceTracker.directionThreshold this' = FaceTracker.directionThreshold this.
Proof.
  unfold FaceTracker.handleResults.
  destruct results as [ [ | faceLandmarks others ] | ]; try (eexists; split; reflexivity).
  match goal with
  | |- context [FaceTracker.calculateDirection this ?l] =>
      destruct (calculateDirection_total this l) as [d Ed];
      destruct (analyzeExpression_total (FaceTracker.emojiMatcher this) l) as (r & s & Ea);
      rewrite Ed, Ea
  end.
  cbn [bind]. eexists; split; reflexivity.
Qed.

(** Repeated calls: after the tracker has processed any sequence of model
    results (which changes its last result and the smoothing state), the
    direction computed for a frame is the one computed before. *)
Corollary calculateDirection_repeatable
    (this : FaceTracker.state)
    (frames : list (option (list (list FaceTracker.NormalizedLandmark))))
    (landmarks : list Landmark) :
  exists this',
    FaceTracker.handleAll this frames = Ok this' /\
    FaceTracker.calculateDirection this' landmarks
    = FaceTracker.calculateDirection this landmarks.
Proof.
  revert this. induction frames as [ | results rest IH ]; intros this.
  - exists this. split; reflexivity.
  - destruct (handleResults_threshold this results) as (this1 & E1 & T1).
    destruct (IH this1) as (this' & E' & D').
    exists this'. cbn [FaceTracker.handleAll]. rewrite E1. cbn [bind].
    split; [ exact E' | ].
    rewrite D'. unfold FaceTracker.calculateDirection, FaceTracker.directionPastGuard.
    rewrite T1. reflexivity.
Qed.

(* ================================================================== *)
(** ** Array reads stay in bounds *)
(* ================================================================== *)

(** C10. On a frame with at least 468 points, the code of both classifiers
    past the length guard returns normally, and returns the same when it is
    run on the frame cut down to its points 0..398: no landmark of index
    above 398 is read (a read of a missing point would throw), and every
    read is in bounds. *)
Theorem reads_stay_below_399
    (tracker : FaceTracker.state) (matcher : state) (landmarks : list Landmark) :
  (468 <= length landmarks)%nat ->
  (exists d,
     FaceTracker.calculateDirection tracker landmarks = Ok d /\
     FaceTracker.directionPastGuard tracker (firstn 399 landmarks) = Ok d) /\
  (exists raw result matcher',
     rawClassification landmarks = Ok raw /\
     rawClassification (firstn 399 landmarks) = Ok raw /\
     analyzeExpression matcher landmarks = Ok (result, matcher')).
Proof.
  intros H. split.
  - destruct (directionPastGuard_ok tracker landmarks) as [d Ed]; [ lia | ].
    exists d. unfold FaceTracker.calculateDirection.
    rewrite (guard_long _ H), directionPastGuard_firstn. auto.
  - destruct (rawClassification_ok landmarks) as (m & _ & Er); [ lia | ].
    destruct (analyzeExpression_total matcher landmarks) as (result & matcher' & Ea).
    exists (detect m), result, matcher'.
    unfold rawClassification in *. rewrite calculateMetrics_firstn. auto.
Qed.

Lemma reads_stay_below_399_witness :
  (exists d,
     FaceTracker.calculateDirection (Tests.trackerWith 0.05) (Tests.createMockLandmarks 0.5 0.7)
     = Ok d /\
     FaceTracker.directionPastGuard (Tests.trackerWith 0.05)
       (firstn 399 (Tests.createMockLandmarks 0.5 0.7)) = Ok d) /\
  (exists raw result matcher',
     rawClassification (Tests.createMockLandmarks 0.5 0.7) = Ok raw /\
     rawClassification (firstn 399 (Tests.createMockLandmarks 0.5 0.7)) = Ok raw /\
     analyzeExpression initial (Tests.createMockLandmarks 0.5 0.7) = Ok (result, matcher')).
Proof.
  apply (reads_stay_below_399
           (Tests.trackerWith 0.05) initial (Tests.createMockLandmarks 0.5 0.7)).
  apply Nat.leb_le. vm_compute. reflexivity.
Defined.

(** The bound is reached: index 398 is read (fourth upper point of the
    right eye), so a frame cut down to 398 points makes the code past the
    guard throw. *)
Example index_398_is_read :
  rawClassification (firstn 398 (Tests.createMockLandmarks 0.5 0.5)) = TypeError /\
  exists raw, rawClassification (firstn 399 (Tests.createMockLandmarks 0.5 0.5)) = Ok raw.
Proof. split; [ | eexists ]; vm_compute; reflexivity. Qed.

(* ================================================================== *)
(** ** More on the direction classifier *)
(* ================================================================== *)

Lemma compare_cont_swap (m1 m2 : positive) :
  Pos.compare_cont Eq m2 m1 = CompOpp (Pos.compare_cont Eq m1 m2).
Proof. symmetry. apply (Pos.compare_cont_antisym m1 m2 Eq). Qed.

(** An offset whose magnitude is at most the threshold is neither above
    the threshold nor below its opposite. *)
Lemma SF_within_threshold (a b : spec_float) :
  SFleb (SFabs a) b = true -> SFltb b a = false /\ SFltb a (SFopp b) = false.
Proof.
  unfold SFleb, SFltb.
  destruct a as [s1 | s1 | | s1 m1 e1], b as [s2 | s2 | | s2 m2 e2]; simpl;
    try destruct s1; try destruct s2; simpl; try (intros; split; congruence);
    rewrite ?(Z.compare_antisym e1 e2), ?(compare_cont_swap m1 m2);
    destruct (Z.compare e1 e2); simpl; try (intros; split; congruence);
    destruct (Pos.compare_cont Eq m1 m2); simpl; intros; split; congruence.
Qed.

Lemma within_threshold (offset threshold : number) :
  (abs offset <=? threshold) = true ->
  (offset >? threshold) = false /\ (offset <? - threshold) = false.
Proof.
  unfold gtb.
  rewrite FloatAxioms.leb_spec, !FloatAxioms.ltb_spec, FloatAxioms.opp_spec, FloatAxioms.abs_spec.
  apply SF_within_threshold.
Qed.

(** X7. Dead zone. On a frame with at least 468 points, when the magnitudes of
    both offsets are at most the threshold the result is CENTER. *)
Theorem dead_zone_is_CENTER
    (this : FaceTracker.state) (landmarks : list Landmark)
    (noseTip leftEye rightEye chin : Landmark) :
  (468 <= length landmarks)%nat ->
  landmarks[[1]] = Some noseTip ->
  landmarks[[33]] = Some leftEye ->
  landmarks[[263]] = Some rightEye ->
  landmarks[[152]] = Some chin ->
  (abs (Spec.horizontalOffset noseTip leftEye rightEye)
   <=? FaceTracker.directionThreshold this) = true ->
  (abs (Spec.verticalOffset noseTip leftEye rightEye chin)
   <=? FaceTracker.directionThreshold this) = true ->
  FaceTracker.calculateDirection this landmarks = Ok CENTER.
Proof.
  intros H E1 E33 E263 E152 Hh Hv.
  rewrite (calculateDirection_offsets this landmarks _ _ _ _ H E1 E33 E263 E152).
  destruct (within_threshold _ _ Hh) as [Hh1 Hh2].
  destruct (within_threshold _ _ Hv) as [Hv1 Hv2].
  rewrite Hh1, Hh2, Hv1, Hv2.
  destruct (Spec.horizontalWins _ _); reflexivity.
Qed.

Lemma dead_zone_is_CENTER_witness :
  FaceTracker.calculateDirection (Tests.trackerWith 0.15) (Tests.createMockLandmarks 0.6 0.45)
  = Ok CENTER.
Proof.
  apply (dead_zone_is_CENTER
           (Tests.trackerWith 0.15) (Tests.createMockLandmarks 0.6 0.45)
           {| x := 0.6; y := 0.45; z := 0 |} {| x := 0.4; y := 0.4; z := 0 |}
           {| x := 0.6; y := 0.4; z := 0 |} {| x := 0.5; y := 0.7; z := 0 |}).
  - apply Nat.leb_le. vm_compute. reflexivity.
  - vm_compute. reflexivity.
  - vm_compute. reflexivity.
  - vm_compute. reflexivity.
  - vm_compute. reflexivity.
  - vm_compute. reflexivity.
  - vm_compute. reflexivity.
Defined.

(** X8. What a label tells. On a frame with at least 468 points, LEFT is only
    returned when the horizontal axis wins with an offset above the
    threshold, RIGHT only when it wins with an offset below the opposite of
    the threshold, and DOWN and UP only when the vertical axis is tested
    with an offset above the threshold, respectively below its opposite. *)
Theorem direction_label_sound
    (this : FaceTracker.state) (landmarks : list Landmark)
    (noseTip leftEye rightEye chin : Landmark) (r : HeadDirection) :
  (468 <= length landmarks)%nat ->
  landmarks[[1]] = Some noseTip ->
  landmarks[[33]] = Some leftEye ->
  landmarks[[263]] = Some rightEye ->
  landmarks[[152]] = Some chin ->
  FaceTracker.calculateDirection this landmarks = Ok r ->
  let h := Spec.horizontalOffset noseTip leftEye rightEye in
  let v := Spec.verticalOffset noseTip leftEye rightEye chin in
  let threshold := FaceTracker.directionThreshold this in
  match r with
  | LEFT => Spec.horizontalWins h v = true /\ (h >? threshold) = true
  | RIGHT => Spec.horizontalWins h v = true /\ (h <? - threshold) = true
  | DOWN => Spec.horizontalWins h v = false /\ (v >? threshold) = true
  | UP => Spec.horizontalWins h v = false /\ (v <? - threshold) = true
  | CENTER => True
  end.
Proof.
  intros H E1 E33 E263 E152 R. cbv zeta.
  rewrite (calculateDirection_offsets this landmarks _ _ _ _ H E1 E33 E263 E152) in R.
  revert R.
  destruct (Spec.horizontalWins _ _);
    [ destruct (_ >? _); [ | destruct (_ <? _) ] | destruct (_ >? _); [ | destruct (_ <? _) ] ];
    intros R; injection R as <-; auto.
Qed.

Lemma direction_label_sound_witness :
  Spec.horizontalWins
    (Spec.horizontalOffset {| x := 0.3; y := 0.5; z := 0 |} {| x := 0.4; y := 0.4; z := 0 |}
                           {| x := 0.6; y := 0.4; z := 0 |})
    (Spec.verticalOffset {| x := 0.3; y := 0.5; z := 0 |} {| x := 0.4; y := 0.4; z := 0 |}
                         {| x := 0.6; y := 0.4; z := 0 |} {| x := 0.5; y := 0.7; z := 0 |})
  = true /\
  (Spec.horizontalOffset {| x := 0.3; y := 0.5; z := 0 |} {| x := 0.4; y := 0.4; z := 0 |}
                         {| x := 0.6; y := 0.4; z := 0 |}
   <? - FaceTracker.directionThreshold (Tests.trackerWith 0.15)) = true.
Proof.
  apply (direction_label_sound
           (Tests.trackerWith 0.15) (Tests.createMockLandmarks 0.3 0.5)
           {| x := 0.3; y := 0.5; z := 0 |} {| x := 0.4; y := 0.4; z := 0 |}
           {| x := 0.6; y := 0.4; z := 0 |} {| x := 0.5; y := 0.7; z := 0 |} RIGHT).
  - apply Nat.leb_le. vm_compute. reflexivity.
  - vm_compute. reflexivity.
  - vm_compute. reflexivity.
  - vm_compute. reflexivity.
  - vm_compute. reflexivity.
  - vm_compute. reflexivity.
Defined.

(** X9. Only four points count. Two frames of at least 468 points whose nose
    tip, eyes and chin (indices 1, 33, 263, 152) have the same x and y get
    the same direction from the same tracker, whatever their other points
    and whatever the depths. *)
Theorem direction_depends_on_four_points
    (this : FaceTracker.state) (l1 l2 : list Landmark) :
  (468 <= length l1)%nat ->
  (468 <= length l2)%nat ->
  (forall i, In i [1; 33; 263; 152]%nat ->
             prop_x l1[[i]] = prop_x l2[[i]] /\ prop_y l1[[i]] = prop_y l2[[i]]) ->
  FaceTracker.calculateDirection this l1 = FaceTracker.calculateDirection this l2.
Proof.
  intros H1 H2 Hpts.
  unfold FaceTracker.calculateDirection, FaceTracker.directionPastGuard.
  rewrite (guard_long _ H1), (guard_long _ H2).
  destruct (Hpts 1%nat) as [X1 Y1]; [ simpl; auto | ].
  destruct (Hpts 33%nat) as [X33 Y33]; [ simpl; auto | ].
  destruct (Hpts 263%nat) as [X263 Y263]; [ simpl; auto | ].
  destruct (Hpts 152%nat) as [X152 Y152]; [ simpl; auto 6 | ].
  rewrite X1, Y1, X33, Y33, X263, Y263, Y152. reflexivity.
Qed.

Lemma direction_depends_on_four_points_witness :
  FaceTracker.calculateDirection (Tests.trackerWith 0.15) Tests.profileLandmarks
  = FaceTracker.calculateDirection (Tests.trackerWith 0.15)
      (JS.assign Tests.profileLandmarks 10 {| x := 0.9; y := 0.1; z := 0.3 |}).
Proof.
  apply (direction_depends_on_four_points
           (Tests.trackerWith 0.15) Tests.profileLandmarks
           (JS.assign Tests.profileLandmarks 10 {| x := 0.9; y := 0.1; z := 0.3 |})).
  - apply Nat.leb_le. vm_compute. reflexivity.
  - apply Nat.leb_le. vm_compute. reflexivity.
  - intros i Hi. simpl in Hi.
    destruct Hi as [ <- | [ <- | [ <- | [ <- | [ ] ] ] ] ]; split; vm_compute; reflexivity.
Defined.

(* ================================================================== *)
(** ** More on the expression classifier *)
(* ================================================================== *)

(** After the smoothing block the committed label is the label just
    detected, whatever the rolling state was. *)
Lemma smooth_lastExpression (this : state) (detected : Expression) :
  lastExpression (smooth this detected) = detected.
Proof.
  unfold smooth.
  destruct (Expression_eqb detected (lastExpression this)) eqn:E;
    cbn [lastExpression expressionStability]; rewrite E; cbn [negb].
  - apply Expression_eqb_eq in E.
    destruct (expressionStability this + 1 >=? 2); cbn [orb lastExpression]; congruence.
  - rewrite orb_true_r. reflexivity.
Qed.

(** The call on a full frame, with the label it commits. *)
Lemma analyzeExpression_full_frame (this : state) (landmarks : list Landmark) :
  (468 <= length landmarks)%nat ->
  exists m,
    rawClassification landmarks = Ok (detect m) /\
    analyzeExpression this landmarks
    = Ok ({| expression := fst (detect m);
             emoji := emojiMap (fst (detect m));
             confidence := snd (detect m) |}, smooth this (fst (detect m))).
Proof.
  intros H.
  destruct (rawClassification_ok landmarks) as (m & _ & Er); [ lia | ].
  exists m. split; [ exact Er | ].
  unfold analyzeExpression. rewrite (guard_long _ H), Er. cbn [bind].
  destruct (detect m) as [fresh conf]. cbn [fst snd].
  rewrite smooth_lastExpression. reflexivity.
Qed.

(** X1. The filter never holds a label back. On a frame with at least 468
    points, from any rolling state, the reported label (and the committed
    label kept for the next call) is the label classified from this very
    frame, with its glyph. *)
Theorem reported_label_is_fresh (this : state) (landmarks : list Landmark) :
  (468 <= length landmarks)%nat ->
  exists fresh conf this',
    rawClassification landmarks = Ok (fresh, conf) /\
    analyzeExpression this landmarks
    = Ok ({| expression := fresh; emoji := emojiMap fresh; confidence := conf |}, this') /\
    lastExpression this' = fresh.
Proof.
  intros H.
  destruct (rawClassification_ok landmarks) as (m & _ & Er); [ lia | ].
  destruct (detect m) as [fresh conf].
  exists fresh, conf, (smooth this fresh).
  split; [ exact Er | ].
  unfold analyzeExpression. rewrite (guard_long _ H), Er. cbn [bind].
  rewrite smooth_lastExpression. auto.
Qed.

Lemma reported_label_is_fresh_witness :
  exists fresh conf this',
    rawClassification Tests.profileLandmarks = Ok (fresh, conf) /\
    analyzeExpression {| lastExpression := HAPPY; expressionStability := 5 |}
                      Tests.profileLandmarks
    = Ok ({| expression := fresh; emoji := emojiMap fresh; confidence := conf |}, this') /\
    lastExpression this' = fresh.
Proof.
  apply (reported_label_is_fresh {| lastExpression := HAPPY; expressionStability := 5 |}
                                 Tests.profileLandmarks).
  apply Nat.leb_le. vm_compute. reflexivity.
Defined.

(** The call on a full frame, with the counter it leaves. *)
Lemma analyzeExpression_stability_filter_aux (this : state) (landmarks : list Landmark) :
  (468 <= length landmarks)%nat ->
  exists fresh conf result this',
    rawClassification landmarks = Ok (fresh, conf) /\
    analyzeExpression this landmarks = Ok (result, this') /\
    Spec.counterAfter this fresh (expressionStability this').
Proof.
  intros H.
  destruct (rawClassification_ok landmarks) as (m & _ & Er); [ lia | ].
  destruct (detect m) as [fresh conf].
  exists fresh, conf. do 2 eexists.
  split; [ exact Er | ].
  unfold analyzeExpression. rewrite (guard_long _ H), Er. cbn [bind].
  split; [ reflexivity | ].
  apply smooth_spec.
Qed.

(** X2. Two calls in a row. On two frames of at least 468 points analysed one
    after the other, the counter after the second call is the counter after
    the first plus one when both frames classify to the same label, and 0
    when they do not. *)
Theorem consecutive_frames_counter (this : state) (l1 l2 : list Landmark) :
  (468 <= length l1)%nat ->
  (468 <= length l2)%nat ->
  exists e1 c1 e2 c2 r1 this1 r2 this2,
    rawClassification l1 = Ok (e1, c1) /\
    rawClassification l2 = Ok (e2, c2) /\
    analyzeExpression this l1 = Ok (r1, this1) /\
    analyzeExpression this1 l2 = Ok (r2, this2) /\
    (e2 = e1 -> expressionStability this2 = expressionStability this1 + 1) /\
    (e2 <> e1 -> expressionStability this2 = 0).
Proof.
  intros H1 H2.
  destruct (analyzeExpression_full_frame this l1 H1) as (m1 & R1 & A1).
  destruct (analyzeExpression_stability_filter_aux (smooth this (fst (detect m1))) l2 H2)
    as (e2 & c2 & r2 & this2 & R2 & A2 & [Hsame Hdiff]).
  exists (fst (detect m1)), (snd (detect m1)), e2, c2. do 2 eexists. exists r2, this2.
  split; [ rewrite R1; destruct (detect m1); reflexivity | ].
  split; [ exact R2 | ]. split; [ exact A1 | ]. split; [ exact A2 | ].
  rewrite smooth_lastExpression in Hsame, Hdiff. auto.
Qed.

Lemma consecutive_frames_counter_witness :
  exists e1 c1 e2 c2 r1 this1 r2 this2,
    rawClassification (Tests.createMockLandmarks 0.5 0.5) = Ok (e1, c1) /\
    rawClassification Tests.profileLandmarks = Ok (e2, c2) /\
    analyzeExpression initial (Tests.createMockLandmarks 0.5 0.5) = Ok (r1, this1) /\
    analyzeExpression this1 Tests.profileLandmarks = Ok (r2, this2) /\
    (e2 = e1 -> expressionStability this2 = expressionStability this1 + 1) /\
    (e2 <> e1 -> expressionStability this2 = 0).
Proof.
  apply (consecutive_frames_counter initial (Tests.createMockLandmarks 0.5 0.5)
                                    Tests.profileLandmarks).
  - apply Nat.leb_le. vm_compute. reflexivity.
  - apply Nat.leb_le. vm_compute. reflexivity.
Defined.

(** In the ladder the confidence is fixed by the branch taken. *)
Lemma detect_confidence (m : Metrics) : snd (detect m) = Labels.confidenceOf (fst (detect m)).
Proof.
  unfold detect.
  repeat match goal with
         | |- context [if ?c then _ else _] => destruct c; [ reflexivity | ]
         end.
  reflexivity.
Qed.

(** None of the ladder's confidences is 0. *)
Lemma confidenceOf_nonzero (e : Expression) : Labels.confidenceOf e <> 0.
Proof.
  intros H. apply (f_equal (fun c => PrimFloat.eqb c 0)) in H.
  destruct e; vm_compute in H; discriminate H.
Qed.

(** The call on a short frame, with the confidence it reports. *)
Lemma short_frame_keeps_state_aux (this : state) (landmarks : list Landmark) :
  (length landmarks < 468)%nat ->
  analyzeExpression this landmarks
  = Ok ({| expression := NEUTRAL; emoji := emojiMap NEUTRAL; confidence := 0 |}, this) /\
  confidence {| expression := NEUTRAL; emoji := emojiMap NEUTRAL; confidence := 0 |} = 0.
Proof.
  intros H. unfold analyzeExpression. rewrite (guard_short _ H). split; reflexivity.
Qed.

(** X3. The confidence goes with the reported label. For every frame and every
    rolling state the call returns normally; on a frame of at least 468
    points the confidence is the fixed constant of the reported label
    (0.9 for WINK, SURPRISED and VERY_HAPPY, 0.85 for KISS and HAPPY, 0.8
    for TONGUE_OUT, SAD and SLEEPY, 0.75 for THINKING and ANGRY, 0.7 for
    CONFUSED, 0.5 for NEUTRAL), and the confidence is 0 exactly when the
    frame has fewer than 468 points. *)
Theorem confidence_of_reported_label (this : state) (landmarks : list Landmark) :
  exists result this',
    analyzeExpression this landmarks = Ok (result, this') /\
    ((468 <= length landmarks)%nat ->
       confidence result = Labels.confidenceOf (expression result)) /\
    (confidence result = 0 <-> (length landmarks < 468)%nat).
Proof.
  destruct (Nat.ltb (length landmarks) 468) eqn:G.
  - apply Nat.ltb_lt in G.
    destruct (short_frame_keeps_state_aux this landmarks G) as [E C].
    do 2 eexists. split; [ exact E | ].
    split; [ intros; lia | ]. split; auto.
  - apply Nat.ltb_ge in G.
    destruct (rawClassification_ok landmarks) as (m & _ & Er); [ lia | ].
    pose proof (detect_confidence m) as Dc.
    destruct (detect m) as [fresh conf]. cbn [fst snd] in Dc.
    do 2 eexists.
    split; [ unfold analyzeExpression; rewrite (guard_long _ G), Er; reflexivity | ].
    cbn [confidence expression]. rewrite smooth_lastExpression.
    split; [ auto | ]. split; [ | intros; lia ].
    intros Z. rewrite Dc in Z. destruct (confidenceOf_nonzero _ Z).
Qed.

(** The branch taken is the first whose condition holds. *)
Lemma detect_condition (m : Metrics) :
  Labels.conditionOf (fst (detect m)) m = true /\
  forall e, In e (Labels.before (fst (detect m))) -> Labels.conditionOf e m = false.
Proof.
  rewrite detect_firstMatch. cbn [Spec.firstMatch Spec.ruleTable].
  repeat match goal with
         | |- context [if ?c then _ else _] =>
             destruct c eqn:?;
             [ split;
               [ assumption
               | cbn [Labels.before In]; intros e He;
                 repeat (destruct He as [ <- | He ]; [ assumption | ]);
                 destruct He ]
             | ]
         end.
  split.
  - cbn [Labels.conditionOf Spec.ruleTable forallb fst].
    repeat match goal with H : _ = false |- _ => rewrite H; clear H end. reflexivity.
  - cbn [Labels.before In]. intros e He.
    repeat (destruct He as [ <- | He ]; [ assumption | ]).
    destruct He.
Qed.

(** X4. What a label tells. On a frame with at least 468 points the condition
    of the reported label holds of the frame's metrics and the condition of
    every label that comes earlier in the ladder fails: HAPPY means a smile
    level above 0.025 without a wink, kiss, surprise, tongue or very happy
    face; NEUTRAL means that no condition holds. *)
Theorem reported_label_condition_holds (this : state) (landmarks : list Landmark) :
  (468 <= length landmarks)%nat ->
  exists m result this',
    calculateMetrics landmarks = Ok m /\
    analyzeExpression this landmarks = Ok (result, this') /\
    Labels.conditionOf (expression result) m = true /\
    forall e, In e (Labels.before (expression result)) -> Labels.conditionOf e m = false.
Proof.
  intros H.
  destruct (rawClassification_ok landmarks) as (m & Em & Er); [ lia | ].
  pose proof (detect_condition m) as Dc.
  destruct (detect m) as [fresh conf]. cbn [fst] in Dc.
  exists m. do 2 eexists.
  split; [ exact Em | ].
  split; [ unfold analyzeExpression; rewrite (guard_long _ H), Er; reflexivity | ].
  cbn [expression]. rewrite smooth_lastExpression. exact Dc.
Qed.

Lemma reported_label_condition_holds_witness :
  exists m result this',
    calculateMetrics (Tests.createMockLandmarks 0.5 0.5) = Ok m /\
    analyzeExpression initial (Tests.createMockLandmarks 0.5 0.5) = Ok (result, this') /\
    Labels.conditionOf (expression result) m = true /\
    forall e, In e (Labels.before (expression result)) -> Labels.conditionOf e m = false.
Proof.
  apply (reported_label_condition_holds initial (Tests.createMockLandmarks 0.5 0.5)).
  apply Nat.leb_le. vm_compute. reflexivity.
Defined.

(** Frames that agree on x and y have the same length and read alike. *)
Lemma sameXY_length (l1 l2 : list Landmark) :
  Labels.sameXY l1 l2 -> length l1 = length l2.
Proof.
  intros H. apply (f_equal (@length _)) in H. rewrite !length_map in H. exact H.
Qed.

Lemma sameXY_reads (l1 l2 : list Landmark) (i : nat) :
  Labels.sameXY l1 l2 ->
  prop_x l1[[i]] = prop_x l2[[i]] /\ prop_y l1[[i]] = prop_y l2[[i]].
Proof.
  intros H. apply (f_equal (fun l => nth_error l i)) in H.
  rewrite !nth_error_map in H.
  destruct (nth_error l1 i) as [p1 | ], (nth_error l2 i) as [p2 | ];
    cbn [option_map] in H; try discriminate H; [ | split; reflexivity ].
  injection H as Hx Hy. cbn [prop_x prop_y]. rewrite Hx, Hy. split; reflexivity.
Qed.

(** X5. Depth is never used. Two frames whose points have the same x and y,
    whatever their z, get the same direction from a tracker and the same
    result and next rolling state from a matcher. *)
Theorem classifiers_ignore_depth
    (tracker : FaceTracker.state) (matcher : state) (l1 l2 : list Landmark) :
  Labels.sameXY l1 l2 ->
  FaceTracker.calculateDirection tracker l1 = FaceTracker.calculateDirection tracker l2 /\
  analyzeExpression matcher l1 = analyzeExpression matcher l2.
Proof.
  intros H.
  assert (Hx : forall i, prop_x l1[[i]] = prop_x l2[[i]])
    by (intros i; apply (sameXY_reads l1 l2 i H)).
  assert (Hy : forall i, prop_y l1[[i]] = prop_y l2[[i]])
    by (intros i; apply (sameXY_reads l1 l2 i H)).
  split.
  - unfold FaceTracker.calculateDirection, FaceTracker.directionPastGuard.
    rewrite (sameXY_length _ _ H), !Hx, !Hy. reflexivity.
  - unfold analyzeExpression, rawClassification.
    rewrite (sameXY_length _ _ H).
    replace (calculateMetrics l1) with (calculateMetrics l2); [ reflexivity | ].
    unfold_metrics. rewrite !Hx, !Hy. reflexivity.
Qed.

Lemma classifiers_ignore_depth_witness :
  FaceTracker.calculateDirection (Tests.trackerWith 0.15) (Tests.createMockLandmarks 0.7 0.5)
  = FaceTracker.calculateDirection (Tests.trackerWith 0.15)
      (map (fun p => {| x := x p; y := y p; z := 0.25 |}) (Tests.createMockLandmarks 0.7 0.5)) /\
  analyzeExpression initial (Tests.createMockLandmarks 0.7 0.5)
  = analyzeExpression initial
      (map (fun p => {| x := x p; y := y p; z := 0.25 |}) (Tests.createMockLandmarks 0.7 0.5)).
Proof.
  apply (classifiers_ignore_depth
           (Tests.trackerWith 0.15) initial (Tests.createMockLandmarks 0.7 0.5)
           (map (fun p => {| x := x p; y := y p; z := 0.25 |})
                (Tests.createMockLandmarks 0.7 0.5))).
  vm_compute. reflexivity.
Defined.

(** X6. Distinct labels have distinct glyphs: the glyph of a result tells its
    label. *)
Theorem emojiMap_injective (a b : Expression) : emojiMap a = emojiMap b -> a = b.
Proof. destruct a, b; intros H; try reflexivity; vm_compute in H; discriminate H. Qed.

Lemma emojiMap_injective_witness : SLEEPY = SLEEPY.
Proof. apply (emojiMap_injective SLEEPY SLEEPY). reflexivity. Defined.

(* ================================================================== *)
(** ** The tracker's results and life cycle *)
(* ================================================================== *)

(** The glyph of a result of [analyzeExpression] is the glyph of its
    label, on both paths. *)
Lemma analyzeExpression_glyph
    (this this' : state) (landmarks : list Landmark) (result : ExpressionResult) :
  analyzeExpression this landmarks = Ok (result, this') ->
  emoji result = emojiMap (expression result).
Proof.
  unfold analyzeExpression.
  destruct (Nat.ltb (length landmarks) 468).
  - intros E. injection E as <- _. reflexivity.
  - destruct (rawClassification landmarks) as [ [e c] | ]; cbn [bind]; [ | discriminate ].
    intros E. injection E as <- _. reflexivity.
Qed.

(** [handleResults] on a face: the direction and the expression are those
    of the two classifiers on the converted landmarks. *)
Lemma handleResults_face
    (this : FaceTracker.state) (faceLandmarks : list FaceTracker.NormalizedLandmark)
    (others : list (list FaceTracker.NormalizedLandmark)) :
  exists d er matcher',
    FaceTracker.calculateDirection this (converted faceLandmarks) = Ok d /\
    analyzeExpression (FaceTracker.emojiMatcher this) (converted faceLandmarks)
    = Ok (er, matcher') /\
    FaceTracker.handleResults this (Some (faceLandmarks :: others))
    = Ok {| FaceTracker.faceMesh := FaceTracker.faceMesh this;
            FaceTracker.ready := FaceTracker.ready this;
            FaceTracker.lastResult :=
              Some {| FaceTracker.detected := true;
                      FaceTracker.landmarks := converted faceLandmarks;
                      FaceTracker.direction := d;
                      FaceTracker.confidence := 1;
                      FaceTracker.emoji := Some (emoji er);
                      FaceTracker.expression := Some (expression er) |};
            FaceTracker.directionThreshold := FaceTracker.directionThreshold this;
            FaceTracker.emojiMatcher := matcher' |}.
Proof.
  destruct (calculateDirection_total this (converted faceLandmarks)) as [d Ed].
  destruct (analyzeExpression_total (FaceTracker.emojiMatcher this) (converted faceLandmarks))
    as (er & s & Ea).
  exists d, er, s. split; [ exact Ed | ]. split; [ exact Ea | ].
  unfold FaceTracker.handleResults. fold (converted faceLandmarks).
  rewrite Ed, Ea. reflexivity.
Qed.

(** What the callback stores, in full. *)
Lemma handleResults_stores_wellFormed_aux
    (this : FaceTracker.state)
    (results : option (list (list FaceTracker.NormalizedLandmark))) :
  exists this' r,
    FaceTracker.handleResults this results = Ok this' /\
    FaceTracker.lastResult this' = Some r /\
    FaceTrackerLifecycle.wellFormed r /\
    (FaceTracker.detected r = false ->
       FaceTracker.emojiMatcher this' = FaceTracker.emojiMatcher this) /\
    FaceTracker.directionThreshold this' = FaceTracker.directionThreshold this /\
    FaceTracker.ready this' = FaceTracker.ready this /\
    FaceTracker.faceMesh this' = FaceTracker.faceMesh this.
Proof.
  destruct results as [ [ | faceLandmarks others ] | ];
    try (do 2 eexists; split; [ reflexivity | ];
         cbn [FaceTracker.lastResult]; split; [ reflexivity | ];
         unfold FaceTrackerLifecycle.wellFormed; cbn; auto 10).
  destruct (handleResults_face this faceLandmarks others) as (d & er & s & Ed & Ea & E).
  do 2 eexists. split; [ exact E | ].
  cbn [FaceTracker.lastResult FaceTracker.directionThreshold FaceTracker.ready
       FaceTracker.faceMesh FaceTracker.emojiMatcher FaceTracker.detected].
  split; [ reflexivity | ].
  split; [ | split; [ discriminate | auto ] ].
  unfold FaceTrackerLifecycle.wellFormed.
  cbn [FaceTracker.detected FaceTracker.confidence FaceTracker.expression FaceTracker.emoji
       FaceTracker.landmarks FaceTracker.direction].
  split; [ reflexivity | ].
  exists (expression er). split; [ reflexivity | ].
  split; [ rewrite (analyzeExpression_glyph _ _ _ _ Ea); reflexivity | ].
  intros Hshort.
  destruct (short_frame_keeps_state_aux (FaceTracker.emojiMatcher this) _ Hshort) as [Ea' _].
  rewrite Ea' in Ea. injection Ea as <- _.
  unfold FaceTracker.calculateDirection in Ed. rewrite (guard_short _ Hshort) in Ed.
  injection Ed as <-. split; reflexivity.
Qed.


(** X10. What the callback stores. Whatever the model reports and whatever
    the tracker's state, the callback returns normally and stores a
    well-formed result. When the model reports no face (no list, or an
    empty one) the stored result is the fixed record (not detected, no
    landmarks, CENTER, confidence 0, no glyph, no expression) and the
    expression smoothing state is left untouched. When it reports a face
    the stored result is detected, carries the converted landmarks of the
    first face, the direction [calculateDirection] gives for them and the
    label and glyph [analyzeExpression] gives for them, and the smoothing
    state is the one that call leaves; its confidence is 1 and, for a face
    of fewer than 468 points, it says CENTER and NEUTRAL. The threshold,
    readiness and model handle are never changed. *)
Theorem handleResults_stores_wellFormed
    (this : FaceTracker.state)
    (results : option (list (list FaceTracker.NormalizedLandmark))) :
  exists this' r,
    FaceTracker.handleResults this results = Ok this' /\
    FaceTracker.lastResult this' = Some r /\
    FaceTrackerLifecycle.wellFormed r /\
    match results with
    | Some (faceLandmarks :: _) =>
        FaceTracker.detected r = true /\
        FaceTracker.landmarks r = converted faceLandmarks /\
        FaceTracker.calculateDirection this (converted faceLandmarks)
        = Ok (FaceTracker.direction r) /\
        exists er,
          analyzeExpression (FaceTracker.emojiMatcher this) (converted faceLandmarks)
          = Ok (er, FaceTracker.emojiMatcher this') /\
          FaceTracker.expression r = Some (expression er) /\
          FaceTracker.emoji r = Some (emoji er)
    | _ =>
        r = FaceTrackerLifecycle.emptyResult /\
        FaceTracker.emojiMatcher this' = FaceTracker.emojiMatcher this
    end /\
    FaceTracker.directionThreshold this' = FaceTracker.directionThreshold this /\
    FaceTracker.ready this' = FaceTracker.ready this /\
    FaceTracker.faceMesh this' = FaceTracker.faceMesh this.
Proof.
  destruct (handleResults_stores_wellFormed_aux this results)
    as (this' & r & E & L & W & M & T & R & F).
  exists this', r.
  split; [ exact E | ]. split; [ exact L | ]. split; [ exact W | ].
  split; [ | auto ].
  destruct results as [ [ | faceLandmarks others ] | ].
  - cbn in E. injection E as <-. cbn in L. injection L as <-. split; reflexivity.
  - destruct (handleResults_face this faceLandmarks others) as (d & er & s & Ed & Ea & E').
    rewrite E' in E. injection E as <-. cbn [FaceTracker.lastResult] in L. injection L as <-.
    cbn [FaceTracker.detected FaceTracker.landmarks FaceTracker.direction
         FaceTracker.expression FaceTracker.emoji FaceTracker.emojiMatcher].
    split; [ reflexivity | ]. split; [ reflexivity | ]. split; [ exact Ed | ].
    exists er. auto.
  - cbn in E. injection E as <-. cbn in L. injection L as <-. split; reflexivity.
Qed.




(** A rejected [send] on the same tracker: the error comes out of
    [processFrame], after the face delivered before it has been stored. *)
Example processFrame_rejected_send :
  exists this',
    FaceTrackerLifecycle.processFrame Fixtures.tracking [Some [Fixtures.face] ]
      (Some (Error "send failed"))
    = (Throws (Error "send failed"), this') /\
    option_map FaceTracker.direction (FaceTracker.lastResult this') = Some LEFT.
Proof. eexists. split; vm_compute; reflexivity. Qed.

(** X12. One frame through the tracker. On a ready tracker, when the model
    reports a face during [send] (and [send] resolves), [processFrame]
    returns a detected result
    that carries the converted landmarks, the direction [calculateDirection]
    gives for them with the tracker's threshold, and the label and glyph
    [analyzeExpression] gives for them from the tracker's smoothing state,
    which is advanced accordingly. *)
Theorem processFrame_classifies_delivered_face
    (this : FaceTracker.state) (faceLandmarks : list FaceTracker.NormalizedLandmark)
    (others : list (list FaceTracker.NormalizedLandmark)) :
  FaceTracker.ready this = true ->
  FaceTracker.faceMesh this <> None ->
  exists r this' er,
    FaceTrackerLifecycle.processFrame this [Some (faceLandmarks :: others)] None
    = (Returns r, this') /\
    FaceTracker.detected r = true /\
    FaceTracker.landmarks r = converted faceLandmarks /\
    FaceTracker.calculateDirection this (converted faceLandmarks)
    = Ok (FaceTracker.direction r) /\
    analyzeExpression (FaceTracker.emojiMatcher this) (converted faceLandmarks)
    = Ok (er, FaceTracker.emojiMatcher this') /\
    FaceTracker.expression r = Some (expression er) /\
    FaceTracker.emoji r = Some (emoji er).
Proof.
  intros R F.
  destruct (handleResults_face this faceLandmarks others) as (d & er & s & Ed & Ea & E).
  unfold FaceTrackerLifecycle.processFrame. rewrite R.
  destruct (FaceTracker.faceMesh this) as [h | ] eqn:Fm; [ | congruence ].
  cbn [negb orb FaceTracker.handleAll]. rewrite E. cbn [bind FaceTracker.lastResult].
  do 2 eexists. exists er. split; [ reflexivity | ].
  cbn [FaceTracker.detected FaceTracker.landmarks FaceTracker.direction
       FaceTracker.expression FaceTracker.emoji FaceTracker.emojiMatcher].
  auto 10.
Qed.

Lemma processFrame_classifies_delivered_face_witness :
  exists r this' er,
    FaceTrackerLifecycle.processFrame (Tests.trackerWith 0.05)
      [Some ([ {| FaceTracker.lm_x := 0.5; FaceTracker.lm_y := 0.5; FaceTracker.lm_z := None |} ]
             :: [])] None
    = (Returns r, this') /\
    FaceTracker.detected r = true /\
    FaceTracker.landmarks r
    = converted [ {| FaceTracker.lm_x := 0.5; FaceTracker.lm_y := 0.5;
                     FaceTracker.lm_z := None |} ] /\
    FaceTracker.calculateDirection (Tests.trackerWith 0.05)
      (converted [ {| FaceTracker.lm_x := 0.5; FaceTracker.lm_y := 0.5;
                      FaceTracker.lm_z := None |} ])
    = Ok (FaceTracker.direction r) /\
    analyzeExpression (FaceTracker.emojiMatcher (Tests.trackerWith 0.05))
      (converted [ {| FaceTracker.lm_x := 0.5; FaceTracker.lm_y := 0.5;
                      FaceTracker.lm_z := None |} ])
    = Ok (er, FaceTracker.emojiMatcher this') /\
    FaceTracker.expression r = Some (expression er) /\
    FaceTracker.emoji r = Some (emoji er).
Proof.
  apply (processFrame_classifies_delivered_face
           (Tests.trackerWith 0.05)
           [ {| FaceTracker.lm_x := 0.5; FaceTracker.lm_y := 0.5; FaceTracker.lm_z := None |} ]
           []).
  - reflexivity.
  - simpl. discriminate.
Defined.

(** The direction part of one frame through the tracker. *)
Lemma processFrame_classifies_delivered_face_aux
    (this : FaceTracker.state) (faceLandmarks : list FaceTracker.NormalizedLandmark)
    (others : list (list FaceTracker.NormalizedLandmark)) :
  FaceTracker.ready this = true ->
  FaceTracker.faceMesh this <> None ->
  exists r this',
    FaceTrackerLifecycle.processFrame this [Some (faceLandmarks :: others)] None
    = (Returns r, this') /\
    FaceTracker.calculateDirection this (converted faceLandmarks)
    = Ok (FaceTracker.direction r).
Proof.
  intros R F.
  destruct (handleResults_face this faceLandmarks others) as (d & er & s & Ed & Ea & E).
  unfold FaceTrackerLifecycle.processFrame. rewrite R.
  destruct (FaceTracker.faceMesh this) as [h | ] eqn:Fm; [ | congruence ].
  cbn [negb orb FaceTracker.handleAll]. rewrite E. cbn [bind FaceTracker.lastResult].
  do 2 eexists. split; [ reflexivity | ]. exact Ed.
Qed.

(** X13. The configured threshold is the one used. After [initialize] with a
    configuration (and the model's script loaded) the tracker is ready, and
    the direction [processFrame] then reports for a face is the one
    [calculateDirection] gives with the configuration's threshold; the
    expression smoothing state is not reset by [initialize]. *)
Theorem initialize_threshold_is_used
    (this : FaceTracker.state) (config : TrackingConfig.t)
    (faceLandmarks : list FaceTracker.NormalizedLandmark)
    (others : list (list FaceTracker.NormalizedLandmark)) :
  exists this1 r this2,
    FaceTrackerLifecycle.initialize this (Some config) true = (Returns tt, this1) /\
    FaceTrackerLifecycle.isReady this1 = true /\
    FaceTracker.emojiMatcher this1 = FaceTracker.emojiMatcher this /\
    FaceTrackerLifecycle.processFrame this1 [Some (faceLandmarks :: others)] None
    = (Returns r, this2) /\
    FaceTracker.calculateDirection
      (Tests.trackerWith (TrackingConfig.directionThreshold config)) (converted faceLandmarks)
    = Ok (FaceTracker.direction r).
Proof.
  eexists.
  destruct (processFrame_classifies_delivered_face_aux
              (snd (FaceTrackerLifecycle.initialize this (Some config) true))
              faceLandmarks others)
    as (r & this2 & P & D); [ reflexivity | simpl; discriminate | ].
  exists r, this2.
  split; [ reflexivity | ]. split; [ reflexivity | ]. split; [ reflexivity | ].
  split; [ exact P | ].
  rewrite <- D. unfold FaceTracker.calculateDirection, FaceTracker.directionPastGuard.
  reflexivity.
Qed.

(** X14. Without the model's script, [initialize] throws after it has already
    stored the threshold: a tracker that was not ready stays not ready, and
    [processFrame] on it throws as well. *)
Theorem initialize_without_model
    (this : FaceTracker.state) (config : option TrackingConfig.t)
    (delivered : list (option (list (list FaceTracker.NormalizedLandmark))))
    (rejection : option exception) :
  FaceTracker.ready this = false ->
  exists this1,
    FaceTrackerLifecycle.initialize this config false
    = (Throws (Error "MediaPipe FaceMesh not loaded. Ensure CDN scripts are included."), this1) /\
    FaceTrackerLifecycle.isReady this1 = false /\
    FaceTracker.directionThreshold this1
    = match config with
      | Some c => TrackingConfig.directionThreshold c
      | None => 0.15
      end /\
    FaceTrackerLifecycle.processFrame this1 delivered rejection
    = (Throws (Error "FaceTracker not initialized. Call initialize() first."), this1).
Proof.
  intros R. eexists. split; [ reflexivity | ].
  unfold FaceTrackerLifecycle.isReady, FaceTrackerLifecycle.processFrame.
  cbn [FaceTracker.ready FaceTracker.directionThreshold]. rewrite R.
  split; [ reflexivity | ]. split; [ destruct config; reflexivity | reflexivity ].
Qed.

Lemma initialize_without_model_witness :
  exists this1,
    FaceTrackerLifecycle.initialize FaceTracker.initial (Some AppConfig.tracking) false
    = (Throws (Error "MediaPipe FaceMesh not loaded. Ensure CDN scripts are included."), this1) /\
    FaceTrackerLifecycle.isReady this1 = false /\
    FaceTracker.directionThreshold this1 = TrackingConfig.directionThreshold AppConfig.tracking /\
    FaceTrackerLifecycle.processFrame this1 [None] None
    = (Throws (Error "FaceTracker not initialized. Call initialize() first."), this1).
Proof.
  apply (initialize_without_model FaceTracker.initial (Some AppConfig.tracking) [None] None).
  reflexivity.
Defined.

(** X15. Stopping and restarting. After [dispose] the tracker is not ready, its
    stored result is gone and [processFrame] throws without changing it;
    the threshold and the expression smoothing state survive, and a later
    [initialize] without a configuration makes the tracker ready again with
    the threshold 0.15 and that same smoothing state. *)
Theorem dispose_then_initialize
    (this : FaceTracker.state)
    (delivered : list (option (list (list FaceTracker.NormalizedLandmark))))
    (rejection : option exception) :
  FaceTrackerLifecycle.isReady (FaceTrackerLifecycle.dispose this) = false /\
  FaceTracker.lastResult (FaceTrackerLifecycle.dispose this) = None /\
  FaceTrackerLifecycle.processFrame (FaceTrackerLifecycle.dispose this) delivered rejection
  = (Throws (Error "FaceTracker not initialized. Call initialize() first."),
     FaceTrackerLifecycle.dispose this) /\
  FaceTracker.directionThreshold (FaceTrackerLifecycle.dispose this)
  = FaceTracker.directionThreshold this /\
  exists this1,
    FaceTrackerLifecycle.initialize (FaceTrackerLifecycle.dispose this) None true
    = (Returns tt, this1) /\
    FaceTrackerLifecycle.isReady this1 = true /\
    FaceTracker.directionThreshold this1 = 0.15 /\
    FaceTracker.emojiMatcher this1 = FaceTracker.emojiMatcher this.
Proof.
  repeat split. eexists. repeat split.
Qed.

(* ================================================================== *)
(** ** The rendering engine *)
(* ================================================================== *)

Lemma circles_app (c1 c2 : list RenderingEngine.CanvasOp) :
  RenderingEngine.circles (c1 ++ c2) = RenderingEngine.circles c1 ++ RenderingEngine.circles c2.
Proof. unfold RenderingEngine.circles. apply filter_app. Qed.

(** The loop of [drawLandmarks] over any list of indices. *)
Lemma drawLandmarks_loop
    (this : RenderingEngine.state) (landmarks : list Landmark) (w h : number)
    (indices : list nat) (context : list RenderingEngine.CanvasOp) :
  exists context',
    fold_left (RenderingEngine.drawLandmarkStep this landmarks w h) indices (Ok context)
    = Ok context' /\
    length (RenderingEngine.circles context')
    = (length (RenderingEngine.circles context)
       + length (filter (fun index => Nat.ltb index (length landmarks)) indices))%nat.
Proof.
  induction indices as [ | index rest IH ] in context |- *.
  - exists context. cbn. split; [ reflexivity | lia ].
  - cbn [fold_left filter]. unfold RenderingEngine.drawLandmarkStep at 2. cbn [bind].
    destruct (Nat.ltb index (length landmarks)) eqn:G.
    + apply Nat.ltb_lt in G. destruct (read_in_range landmarks index G) as [p E].
      rewrite E. cbn [prop_x prop_y bind].
      match goal with
      | |- context [fold_left _ rest (Ok ?c)] => destruct (IH c) as (context' & E' & L')
      end.
      exists context'. split; [ exact E' | ].
      rewrite L', circles_app. cbn [RenderingEngine.circles filter length app].
      rewrite length_app. cbn [length]. lia.
    + destruct (IH context) as (context' & E' & L').
      exists context'. split; [ exact E' | exact L' ].
Qed.

(** The whole of [drawLandmarks]. *)
Lemma drawLandmarks_returns_aux
    (this : RenderingEngine.state) (landmarks : list Landmark)
    (context : list RenderingEngine.CanvasOp) :
  exists context',
    RenderingEngine.drawLandmarks this landmarks context = Ok context' /\
    length (RenderingEngine.circles context')
    = (length (RenderingEngine.circles context)
       + match RenderingEngine.overlayCanvas this with
         | Some _ => length (RenderingEngine.visibleIndices landmarks)
         | None => 0
         end)%nat.
Proof.
  unfold RenderingEngine.drawLandmarks.
  destruct (RenderingEngine.overlayCanvas this) as [canvas | ].
  - match goal with
    | |- context [fold_left ?f ?l (Ok ?c)] =>
        destruct (drawLandmarks_loop this landmarks (RenderingEngine.width canvas)
                    (RenderingEngine.height canvas) l c) as (context' & E & L)
    end.
    exists context'. split; [ exact E | ].
    rewrite L, circles_app. cbn [RenderingEngine.circles filter app].
    rewrite app_nil_r. unfold RenderingEngine.visibleIndices. reflexivity.
  - exists context. split; [ reflexivity | lia ].
Qed.


(** X16. [drawLandmarks] never reads past the frame. For every frame, of any
    length, the call returns normally; with a canvas it draws one circle
    for each key index below the length of the frame, and none without. *)
Theorem drawLandmarks_returns
    (this : RenderingEngine.state) (landmarks : list Landmark)
    (context : list RenderingEngine.CanvasOp) :
  exists context',
    RenderingEngine.drawLandmarks this landmarks context = Ok context' /\
    length (RenderingEngine.circles context')
    = (length (RenderingEngine.circles context)
       + match RenderingEngine.overlayCanvas this with
         | Some _ => length (RenderingEngine.visibleIndices landmarks)
         | None => 0
         end)%nat.
Proof.
  destruct (drawLandmarks_returns_aux this landmarks context) as (context' & E & L).
  exists context'. split; assumption.
Qed.

(** What one rendered frame does. *)
Lemma renderFrame_spec
    (this : RenderingEngine.state) (trackingResult : FaceTracker.FaceTrackingResult)
    (context : list RenderingEngine.CanvasOp) (canvas : RenderingEngine.Canvas) :
  RenderingEngine.overlayContext this = Some context ->
  RenderingEngine.overlayCanvas this = Some canvas ->
  exists this' context',
    RenderingEngine.renderFrame this trackingResult = (Returns tt, this') /\
    RenderingEngine.overlayContext this' = Some context' /\
    length (RenderingEngine.circles context')
    = (length (RenderingEngine.circles context)
       + if FaceTracker.detected trackingResult
         then length (RenderingEngine.visibleIndices (FaceTracker.landmarks trackingResult))
         else 0)%nat /\
    RenderingEngine.borderElement this'
    = match RenderingEngine.borderElement this with
      | Some _ =>
          Some {| RenderingEngine.borderColor :=
                    RenderingEngine.borderColors this (FaceTracker.direction trackingResult) |}
      | None => None
      end /\
    RenderingEngine.borderColors this' = RenderingEngine.borderColors this /\
    RenderingEngine.overlayCanvas this' = Some canvas.
Proof.
  intros Hc Hv. unfold RenderingEngine.renderFrame. rewrite Hc, Hv.
  assert (Hdraw : exists context',
    (if FaceTracker.detected trackingResult
        && Nat.ltb 0 (length (FaceTracker.landmarks trackingResult))
     then RenderingEngine.drawLandmarks this (FaceTracker.landmarks trackingResult)
            (context ++ [RenderingEngine.DrawImage 0 0 (RenderingEngine.width canvas)
                                                   (RenderingEngine.height canvas)])
     else Ok (context ++ [RenderingEngine.DrawImage 0 0 (RenderingEngine.width canvas)
                                                    (RenderingEngine.height canvas)]))
    = Ok context' /\
    length (RenderingEngine.circles context')
    = (length (RenderingEngine.circles context)
       + if FaceTracker.detected trackingResult
         then length (RenderingEngine.visibleIndices (FaceTracker.landmarks trackingResult))
         else 0)%nat).
  { destruct (FaceTracker.detected trackingResult); cbn [andb].
    - destruct (Nat.ltb 0 (length (FaceTracker.landmarks trackingResult))) eqn:G.
      + match goal with
        | |- context [RenderingEngine.drawLandmarks this ?l ?c] =>
            destruct (drawLandmarks_returns_aux this l c) as (context' & E & L)
        end.
        exists context'. split; [ exact E | ].
        rewrite L, Hv, circles_app. cbn [RenderingEngine.circles filter app].
        rewrite app_nil_r. reflexivity.
      + apply Nat.ltb_ge in G.
        destruct (FaceTracker.landmarks trackingResult) as [ | p rest ];
          [ | cbn [length] in G; lia ].
        eexists. split; [ reflexivity | ].
        rewrite circles_app. cbn. rewrite app_nil_r. lia.
    - eexists. split; [ reflexivity | ].
      rewrite circles_app. cbn. rewrite app_nil_r. lia. }
  destruct Hdraw as (context' & E & L). rewrite E.
  unfold RenderingEngine.updateBorder.
  cbn [RenderingEngine.borderElement RenderingEngine.borderColors
       RenderingEngine.overlayContext RenderingEngine.overlayCanvas].
  destruct (RenderingEngine.borderElement this) as [el | ]; do 2 eexists;
    (split; [ reflexivity | ]);
    cbn [RenderingEngine.borderElement RenderingEngine.borderColors
         RenderingEngine.overlayContext RenderingEngine.overlayCanvas];
    auto.
Qed.

(** X17. An initialized engine renders every result. With its context and
    canvas in place, [renderFrame] returns normally for every tracking
    result, whatever the number of landmarks; it draws one circle per key
    index below the number of landmarks when a face is detected and none
    otherwise, and it sets the border (when there is a border element) to
    the colour configured for the result's direction. *)
Theorem renderFrame_on_initialized_engine
    (this : RenderingEngine.state) (trackingResult : FaceTracker.FaceTrackingResult)
    (context : list RenderingEngine.CanvasOp) (canvas : RenderingEngine.Canvas) :
  RenderingEngine.overlayContext this = Some context ->
  RenderingEngine.overlayCanvas this = Some canvas ->
  exists this' context',
    RenderingEngine.renderFrame this trackingResult = (Returns tt, this') /\
    RenderingEngine.overlayContext this' = Some context' /\
    length (RenderingEngine.circles context')
    = (length (RenderingEngine.circles context)
       + if FaceTracker.detected trackingResult
         then length (RenderingEngine.visibleIndices (FaceTracker.landmarks trackingResult))
         else 0)%nat /\
    RenderingEngine.borderElement this'
    = match RenderingEngine.borderElement this with
      | Some _ =>
          Some {| RenderingEngine.borderColor :=
                    RenderingEngine.borderColors this (FaceTracker.direction trackingResult) |}
      | None => None
      end.
Proof.
  intros Hc Hv.
  destruct (renderFrame_spec this trackingResult context canvas Hc Hv)
    as (this' & context' & E & C & L & B & _).
  exists this', context'. auto.
Qed.

Lemma renderFrame_on_initialized_engine_witness :
  exists this' context',
    RenderingEngine.renderFrame Fixtures.engine Fixtures.lookingUp = (Returns tt, this') /\
    RenderingEngine.overlayContext this' = Some context' /\
    length (RenderingEngine.circles context')
    = (length (RenderingEngine.circles [])
       + if FaceTracker.detected Fixtures.lookingUp
         then length (RenderingEngine.visibleIndices (FaceTracker.landmarks Fixtures.lookingUp))
         else 0)%nat /\
    RenderingEngine.borderElement this'
    = match RenderingEngine.borderElement Fixtures.engine with
      | Some _ =>
          Some {| RenderingEngine.borderColor :=
                    RenderingEngine.borderColors Fixtures.engine
                      (FaceTracker.direction Fixtures.lookingUp) |}
      | None => None
      end.
Proof.
  apply (renderFrame_on_initialized_engine Fixtures.engine Fixtures.lookingUp []
           {| RenderingEngine.width := 640;
              RenderingEngine.height := 480;
              RenderingEngine.getContext2d := Some [] |}).
  - reflexivity.
  - reflexivity.
Defined.

(** Every key index is below 467. *)
Lemma keyLandmarkIndices_bound :
  forallb (fun index => Nat.ltb index 467) RenderingEngine.keyLandmarkIndices = true.
Proof. vm_compute. reflexivity. Qed.

Lemma visibleIndices_full (landmarks : list Landmark) :
  (467 <= length landmarks)%nat ->
  RenderingEngine.visibleIndices landmarks = RenderingEngine.keyLandmarkIndices.
Proof.
  intros H. unfold RenderingEngine.visibleIndices. apply forallb_filter_id.
  apply forallb_forall. intros index Hin.
  pose proof keyLandmarkIndices_bound as B.
  rewrite forallb_forall in B. specialize (B index Hin).
  apply Nat.ltb_lt in B. apply Nat.ltb_lt. lia.
Qed.

(** X18. A full face gets all its circles. On an initialized engine, a detected
    face of at least 468 landmarks adds exactly 145 circles to the canvas
    (one per entry of the key index list, whose largest index is 466), and
    a result without a face adds none. *)
Theorem renderFrame_full_face_circles
    (this : RenderingEngine.state) (trackingResult : FaceTracker.FaceTrackingResult)
    (context : list RenderingEngine.CanvasOp) (canvas : RenderingEngine.Canvas) :
  RenderingEngine.overlayContext this = Some context ->
  RenderingEngine.overlayCanvas this = Some canvas ->
  exists this' context',
    RenderingEngine.renderFrame this trackingResult = (Returns tt, this') /\
    RenderingEngine.overlayContext this' = Some context' /\
    (FaceTracker.detected trackingResult = true ->
     (468 <= length (FaceTracker.landmarks trackingResult))%nat ->
     length (RenderingEngine.circles context')
     = (length (RenderingEngine.circles context) + 145)%nat) /\
    (FaceTracker.detected trackingResult = false ->
     RenderingEngine.circles context' = RenderingEngine.circles context).
Proof.
  intros Hc Hv. unfold RenderingEngine.renderFrame. rewrite Hc, Hv.
  destruct (FaceTracker.detected trackingResult); cbn [andb].
  - destruct (Nat.ltb 0 (length (FaceTracker.landmarks trackingResult))) eqn:G.
    + match goal with
      | |- context [RenderingEngine.drawLandmarks this ?l ?c] =>
          destruct (drawLandmarks_returns_aux this l c) as (context' & E & L)
      end.
      rewrite E. do 2 eexists. split; [ reflexivity | ].
      split; [ unfold RenderingEngine.updateBorder;
               destruct (RenderingEngine.borderElement _); reflexivity | ].
      split; [ | discriminate ].
      intros _ Hfull. rewrite L, Hv, circles_app, visibleIndices_full by lia.
      cbn [RenderingEngine.circles filter app]. rewrite app_nil_r. reflexivity.
    + do 2 eexists. split; [ reflexivity | ].
      split; [ unfold RenderingEngine.updateBorder;
               destruct (RenderingEngine.borderElement _); reflexivity | ].
      split; [ | discriminate ].
      intros _ Hfull. apply Nat.ltb_ge in G. lia.
  - do 2 eexists. split; [ reflexivity | ].
    split; [ unfold RenderingEngine.updateBorder;
             destruct (RenderingEngine.borderElement _); reflexivity | ].
    split; [ discriminate | ].
    intros _. rewrite circles_app. cbn [RenderingEngine.circles filter app].
    apply app_nil_r.
Qed.

Lemma renderFrame_full_face_circles_witness :
  exists this' context',
    RenderingEngine.renderFrame Fixtures.engine Fixtures.lookingUp = (Returns tt, this') /\
    RenderingEngine.overlayContext this' = Some context' /\
    (FaceTracker.detected Fixtures.lookingUp = true ->
     (468 <= length (FaceTracker.landmarks Fixtures.lookingUp))%nat ->
     length (RenderingEngine.circles context')
     = (length (RenderingEngine.circles []) + 145)%nat) /\
    (FaceTracker.detected Fixtures.lookingUp = false ->
     RenderingEngine.circles context' = RenderingEngine.circles []).
Proof.
  apply (renderFrame_full_face_circles Fixtures.engine Fixtures.lookingUp []
           {| RenderingEngine.width := 640;
              RenderingEngine.height := 480;
              RenderingEngine.getContext2d := Some [] |}).
  - reflexivity.
  - reflexivity.
Defined.

(** The default colours of the five directions are pairwise distinct. *)
Lemma borders_injective (d1 d2 : HeadDirection) :
  AppConfig.borders d1 = AppConfig.borders d2 -> d1 = d2.
Proof. destruct d1, d2; intros H; try reflexivity; vm_compute in H; discriminate H. Qed.

(** Rendering one more frame after a run that returned. *)
Lemma renderAll_app
    (results : list FaceTracker.FaceTrackingResult) (this this1 this' : RenderingEngine.state)
    (trackingResult : FaceTracker.FaceTrackingResult) :
  RenderingEngine.renderAll this results = (Returns tt, this1) ->
  RenderingEngine.renderFrame this1 trackingResult = (Returns tt, this') ->
  RenderingEngine.renderAll this (results ++ [trackingResult]) = (Returns tt, this').
Proof.
  induction results as [ | r rest IH ] in this |- *; cbn [RenderingEngine.renderAll app].
  - intros E1 E. injection E1 as <-. rewrite E. reflexivity.
  - destruct (RenderingEngine.renderFrame this r) as [ [ [ ] | e ] s ].
    + intros E1 E. apply (IH s E1 E).
    + intros E1. discriminate E1.
Qed.

(** An engine that has its context, canvas and border element keeps them,
    and its colour map, over any sequence of rendered frames, none of which
    throws. *)
Lemma renderAll_keeps_engine
    (results : list FaceTracker.FaceTrackingResult) (this : RenderingEngine.state)
    (context : list RenderingEngine.CanvasOp) (canvas : RenderingEngine.Canvas)
    (element : RenderingEngine.Element) :
  RenderingEngine.overlayContext this = Some context ->
  RenderingEngine.overlayCanvas this = Some canvas ->
  RenderingEngine.borderElement this = Some element ->
  exists this' context' element',
    RenderingEngine.renderAll this results = (Returns tt, this') /\
    RenderingEngine.overlayContext this' = Some context' /\
    RenderingEngine.overlayCanvas this' = Some canvas /\
    RenderingEngine.borderElement this' = Some element' /\
    RenderingEngine.borderColors this' = RenderingEngine.borderColors this.
Proof.
  induction results as [ | r rest IH ] in this, context, element |- *; intros Hc Hv Hb.
  - exists this, context, element. cbn. auto.
  - destruct (renderFrame_spec this r context canvas Hc Hv)
      as (this1 & context1 & E & C1 & _ & B1 & K1 & V1).
    rewrite Hb in B1.
    destruct (IH this1 context1 _ C1 V1 B1) as (this' & context' & element' & E' & C' & V' & B' & K').
    exists this', context', element'. cbn [RenderingEngine.renderAll]. rewrite E.
    split; [ exact E' | ]. repeat split; congruence.
Qed.

(** X19. The border tells the direction. With the engine set up as main.ts
    does (default configuration, a canvas that has a 2D context), the
    border starts with the colour of CENTER; every frame rendered
    afterwards returns normally, and after every rendered frame, however
    many frames were rendered before it, the border has the default colour
    of a direction exactly when that is the direction of the result just
    rendered. *)
Theorem border_identifies_direction
    (canvas : RenderingEngine.Canvas) (element : RenderingEngine.Element)
    (context : list RenderingEngine.CanvasOp)
    (before : list FaceTracker.FaceTrackingResult)
    (trackingResult : FaceTracker.FaceTrackingResult) :
  RenderingEngine.getContext2d canvas = Some context ->
  exists this this1 this',
    RenderingEngine.initialize RenderingEngine.initial canvas element
      (Some RenderingEngine.defaultConfig) = (Returns tt, this) /\
    RenderingEngine.borderElement this
    = Some {| RenderingEngine.borderColor := AppConfig.borders CENTER |} /\
    RenderingEngine.renderAll this before = (Returns tt, this1) /\
    RenderingEngine.renderFrame this1 trackingResult = (Returns tt, this') /\
    RenderingEngine.renderAll this (before ++ [trackingResult]) = (Returns tt, this') /\
    forall d,
      RenderingEngine.borderElement this'
      = Some {| RenderingEngine.borderColor := AppConfig.borders d |}
      <-> d = FaceTracker.direction trackingResult.
Proof.
  intros G.
  assert (I : RenderingEngine.initialize RenderingEngine.initial canvas element
                (Some RenderingEngine.defaultConfig)
              = (Returns tt,
                 {| RenderingEngine.overlayCanvas := Some canvas;
                    RenderingEngine.overlayContext := Some context;
                    RenderingEngine.borderElement :=
                      Some {| RenderingEngine.borderColor := AppConfig.borders CENTER |};
                    RenderingEngine.borderColors := AppConfig.borders;
                    RenderingEngine.landmarkColor := AppConfig.landmarkColor;
                    RenderingEngine.landmarkRadius := AppConfig.landmarkRadius |})).
  { unfold RenderingEngine.initialize.
    cbn [RenderingEngine.overlayContext RenderingEngine.overlayCanvas
         RenderingEngine.borderElement RenderingEngine.borderColors
         RenderingEngine.landmarkColor RenderingEngine.landmarkRadius
         RenderingEngine.defaultConfig RenderingEngine.config_borderColors
         RenderingEngine.config_landmarkColor RenderingEngine.config_landmarkRadius].
    rewrite G. reflexivity. }
  match type of I with
  | _ = (_, ?s) =>
      destruct (renderAll_keeps_engine before s context canvas _ eq_refl eq_refl eq_refl)
        as (this1 & context1 & element1 & E1 & C1 & V1 & B1 & K1);
      destruct (renderFrame_spec this1 trackingResult context1 canvas C1 V1)
        as (this' & context' & E & _ & _ & B & _);
      exists s, this1, this'
  end.
  split; [ exact I | ]. split; [ reflexivity | ]. split; [ exact E1 | ].
  split; [ exact E | ].
  split; [ apply (renderAll_app _ _ _ _ _ E1 E) | ].
  intros d. rewrite B, B1, K1.
  cbn [RenderingEngine.borderElement RenderingEngine.borderColors].
  split.
  - intros H. injection H as H. symmetry. apply borders_injective. exact H.
  - intros ->. reflexivity.
Qed.

Lemma border_identifies_direction_witness :
  exists this this1 this',
    RenderingEngine.initialize RenderingEngine.initial
      {| RenderingEngine.width := 640; RenderingEngine.height := 480;
         RenderingEngine.getContext2d := Some [] |}
      {| RenderingEngine.borderColor := "" |}
      (Some RenderingEngine.defaultConfig) = (Returns tt, this) /\
    RenderingEngine.borderElement this
    = Some {| RenderingEngine.borderColor := AppConfig.borders CENTER |} /\
    RenderingEngine.renderAll this [FaceTrackerLifecycle.emptyResult; Fixtures.lookingUp]
    = (Returns tt, this1) /\
    RenderingEngine.renderFrame this1 FaceTrackerLifecycle.emptyResult = (Returns tt, this') /\
    RenderingEngine.renderAll this
      ([FaceTrackerLifecycle.emptyResult; Fixtures.lookingUp] ++ [FaceTrackerLifecycle.emptyResult])
    = (Returns tt, this') /\
    forall d,
      RenderingEngine.borderElement this'
      = Some {| RenderingEngine.borderColor := AppConfig.borders d |}
      <-> d = FaceTracker.direction FaceTrackerLifecycle.emptyResult.
Proof.
  apply (border_identifies_direction
           {| RenderingEngine.width := 640; RenderingEngine.height := 480;
              RenderingEngine.getContext2d := Some [] |}
           {| RenderingEngine.borderColor := "" |} []
           [FaceTrackerLifecycle.emptyResult; Fixtures.lookingUp]
           FaceTrackerLifecycle.emptyResult).
  reflexivity.
Defined.

(** X20. A canvas without a 2D context. From any state of the engine,
    [initialize] on a canvas whose [getContext('2d')] is [null] throws
    after it has stored the canvas and the border element, and leaves the
    engine without a context; the border element is not coloured,
    [renderFrame] then throws for every result and leaves the engine as it
    is, and [clear] does nothing. *)
Theorem initialize_without_context
    (this0 : RenderingEngine.state)
    (canvas : RenderingEngine.Canvas) (element : RenderingEngine.Element)
    (config : option RenderingEngine.RenderingConfig)
    (trackingResult : FaceTracker.FaceTrackingResult) :
  RenderingEngine.getContext2d canvas = None ->
  exists this,
    RenderingEngine.initialize this0 canvas element config
    = (Throws (Error "Failed to get 2D rendering context from canvas element"), this) /\
    RenderingEngine.overlayCanvas this = Some canvas /\
    RenderingEngine.overlayContext this = None /\
    RenderingEngine.borderElement this = Some element /\
    RenderingEngine.renderFrame this trackingResult
    = (Throws (Error "RenderingEngine not initialized. Call initialize() first."), this) /\
    RenderingEngine.clear this = this.
Proof.
  intros G. unfold RenderingEngine.initialize.
  cbn [RenderingEngine.overlayContext RenderingEngine.overlayCanvas].
  destruct config as [c | ];
    cbn [RenderingEngine.overlayContext RenderingEngine.overlayCanvas
         RenderingEngine.borderElement]; rewrite G;
    (eexists; split; [ reflexivity | ];
     unfold RenderingEngine.renderFrame, RenderingEngine.clear;
     cbn [RenderingEngine.overlayContext RenderingEngine.overlayCanvas
          RenderingEngine.borderElement];
     rewrite ?G; repeat split; try exact G; reflexivity).
Qed.

Lemma initialize_without_context_witness :
  exists this,
    RenderingEngine.initialize Fixtures.engine
      {| RenderingEngine.width := 640; RenderingEngine.height := 480;
         RenderingEngine.getContext2d := None |}
      {| RenderingEngine.borderColor := "" |} None
    = (Throws (Error "Failed to get 2D rendering context from canvas element"), this) /\
    RenderingEngine.overlayCanvas this
    = Some {| RenderingEngine.width := 640; RenderingEngine.height := 480;
              RenderingEngine.getContext2d := None |} /\
    RenderingEngine.overlayContext this = None /\
    RenderingEngine.borderElement this = Some {| RenderingEngine.borderColor := "" |} /\
    RenderingEngine.renderFrame this Fixtures.lookingUp
    = (Throws (Error "RenderingEngine not initialized. Call initialize() first."), this) /\
    RenderingEngine.clear this = this.
Proof.
  apply (initialize_without_context Fixtures.engine
           {| RenderingEngine.width := 640; RenderingEngine.height := 480;
              RenderingEngine.getContext2d := None |}
           {| RenderingEngine.borderColor := "" |} None Fixtures.lookingUp).
  reflexivity.
Defined.

(* ================================================================== *)
(** ** The emoji counters *)
(* ================================================================== *)

Lemma hasOwnProperty_keys (o : list (string * number)) (key : string) :
  Main.hasOwnProperty o key = true <-> In key (map fst o).
Proof.
  induction o as [ | [k n] rest IH ]; cbn [Main.hasOwnProperty map fst In].
  - split; [ discriminate | tauto ].
  - destruct (String.eqb_spec k key) as [-> | Hne].
    + split; auto.
    + rewrite IH. split; [ auto | intros [Hk | Hin]; [ contradiction | exact Hin ] ].
Qed.

Lemma increment_keys (o : list (string * number)) (key : string) :
  map fst (Main.increment o key) = map fst o.
Proof.
  induction o as [ | [k n] rest IH ]; cbn [Main.increment map fst]; [ reflexivity | ].
  destruct (String.eqb k key); cbn [map fst]; [ reflexivity | rewrite IH; reflexivity ].
Qed.

Lemma get_increment_other (o : list (string * number)) (key other : string) :
  other <> key -> Main.get (Main.increment o key) other = Main.get o other.
Proof.
  intros Hne. induction o as [ | [k n] rest IH ]; cbn [Main.increment Main.get];
    [ reflexivity | ].
  destruct (String.eqb_spec k key) as [-> | Hk]; cbn [Main.get].
  - destruct (String.eqb_spec key other) as [-> | _]; [ contradiction | reflexivity ].
  - destruct (String.eqb k other); [ reflexivity | exact IH ].
Qed.

Lemma get_increment_same (o : list (string * number)) (key : string) :
  Main.hasOwnProperty o key = true ->
  exists n, Main.get o key = Some n /\ Main.get (Main.increment o key) key = Some (n + 1).
Proof.
  induction o as [ | [k n] rest IH ]; cbn [Main.hasOwnProperty Main.increment Main.get];
    [ discriminate | ].
  destruct (String.eqb k key) eqn:E; cbn [Main.get]; rewrite E.
  - intros _. exists n. split; reflexivity.
  - exact IH.
Qed.

(** While the last counted expression is the one shown, nothing changes. *)
Lemma countExpression_same (v : Main.vars) (t : number) :
  Main.countExpression v (Some (Main.lastExpression v)) t = v.
Proof.
  unfold Main.countExpression. rewrite String.eqb_refl.
  cbn [negb]. rewrite andb_false_r. reflexivity.
Qed.

Lemma countAll_same (times : list number) (v : Main.vars) (e : string) :
  Main.lastExpression v = e ->
  Main.countAll v (map (fun t => (Some e, t)) times) = v.
Proof.
  intros <-. unfold Main.countAll.
  induction times as [ | t rest IH ]; cbn [map fold_left fst snd]; [ reflexivity | ].
  rewrite countExpression_same. exact IH.
Qed.

(** One step of the counter block, by cases. *)
Lemma countExpression_cases (v : Main.vars) (e : string) (t : number) :
  Main.countExpression v (Some e) t = v \/
  (e <> ""%string /\ e <> Main.lastExpression v /\
   (t - Main.lastRecognitionTime v >=? Main.RECOGNITION_INTERVAL) = true /\
   Main.lastExpression (Main.countExpression v (Some e) t) = e /\
   Main.lastRecognitionTime (Main.countExpression v (Some e) t) = t /\
   Main.emojiCounts (Main.countExpression v (Some e) t)
   = if Main.hasOwnProperty (Main.emojiCounts v) e
     then Main.increment (Main.emojiCounts v) e
     else Main.emojiCounts v).
Proof.
  unfold Main.countExpression.
  destruct (String.eqb_spec e "") as [-> | He]; cbn [negb andb]; [ left; reflexivity | ].
  destruct (String.eqb_spec e (Main.lastExpression v)) as [-> | Hl]; cbn [negb andb];
    [ left; reflexivity | ].
  destruct (t - Main.lastRecognitionTime v >=? Main.RECOGNITION_INTERVAL);
    [ | left; reflexivity ].
  right. destruct (Main.hasOwnProperty (Main.emojiCounts v) e); cbn; auto 10.
Qed.

(** X21. Holding an expression counts it once. However many frames in a row
    show the same expression, and whatever the clock readings, its counter
    goes up at most once and no other counter changes: the counters after
    the run are the counters before it, or those with that one counter
    incremented once. *)
Theorem same_expression_counted_once (v : Main.vars) (e : string) (times : list number) :
  Main.emojiCounts (Main.countAll v (map (fun t => (Some e, t)) times)) = Main.emojiCounts v \/
  Main.emojiCounts (Main.countAll v (map (fun t => (Some e, t)) times))
  = Main.increment (Main.emojiCounts v) e.
Proof.
  induction times as [ | t rest IH ] in v |- *; [ left; reflexivity | ].
  cbn [map]. unfold Main.countAll. cbn [fold_left fst snd].
  fold (Main.countAll (Main.countExpression v (Some e) t) (map (fun t => (Some e, t)) rest)).
  destruct (countExpression_cases v e t) as [E | (_ & _ & _ & L & _ & C)].
  - rewrite E. apply IH.
  - rewrite (countAll_same rest _ e L), C.
    destruct (Main.hasOwnProperty (Main.emojiCounts v) e); auto.
Qed.

(** X22. One frame touches one counter. A run of the counter block never adds,
    removes or reorders keys, and leaves the counter of every key other
    than the shown expression as it was. *)
Theorem countExpression_touches_one_counter
    (v : Main.vars) (expression : option string) (t : number) :
  map fst (Main.emojiCounts (Main.countExpression v expression t))
  = map fst (Main.emojiCounts v) /\
  forall key, expression <> Some key ->
    Main.get (Main.emojiCounts (Main.countExpression v expression t)) key
    = Main.get (Main.emojiCounts v) key.
Proof.
  destruct expression as [e | ]; [ | split; reflexivity ].
  destruct (countExpression_cases v e t) as [E | (_ & _ & _ & _ & _ & C)].
  - rewrite E. split; reflexivity.
  - rewrite C. destruct (Main.hasOwnProperty (Main.emojiCounts v) e);
      [ | split; reflexivity ].
    split; [ apply increment_keys | ].
    intros key Hk. apply get_increment_other. congruence.
Qed.

(** The keys after one run of the counter block. *)
Lemma countExpression_touches_one_counter_aux
    (v : Main.vars) (expression : option string) (t : number) :
  map fst (Main.emojiCounts (Main.countExpression v expression t))
  = map fst (Main.emojiCounts v).
Proof.
  destruct expression as [e | ]; [ | reflexivity ].
  destruct (countExpression_cases v e t) as [E | (_ & _ & _ & _ & _ & C)].
  - rewrite E. reflexivity.
  - rewrite C. destruct (Main.hasOwnProperty (Main.emojiCounts v) e);
      [ apply increment_keys | reflexivity ].
Qed.

(** The keys of the counters never change over a run. *)
Lemma countAll_keys (frames : list (option string * number)) (v : Main.vars) :
  map fst (Main.emojiCounts (Main.countAll v frames)) = map fst (Main.emojiCounts v).
Proof.
  unfold Main.countAll.
  induction frames as [ | [x t] rest IH ] in v |- *; cbn [fold_left fst snd];
    [ reflexivity | ].
  rewrite IH. apply countExpression_touches_one_counter_aux.
Qed.

(** Every label of the enum is a key of the initial counters, and none is
    the empty string. *)
Lemma value_is_key (e : Expression) :
  In (Labels.value e) (map fst (Main.emojiCounts Main.initial)) /\
  Labels.value e <> ""%string.
Proof. destruct e; split; try discriminate; cbn; tauto. Qed.

(** X23. Every reported expression has a counter. After any run of [updateUI]
    from the initial variables, each of the twelve labels the matcher can
    report still has its counter; and when such a label is shown, differs
    from the last counted expression and the second since the last count
    has passed, its counter goes up by exactly one and it becomes the last
    counted expression, with the clock reading stored. *)
Theorem reported_expression_is_counted
    (frames : list (option string * number)) (e : Expression) (t : number) :
  Labels.value e <> Main.lastExpression (Main.countAll Main.initial frames) ->
  (t - Main.lastRecognitionTime (Main.countAll Main.initial frames)
   >=? Main.RECOGNITION_INTERVAL) = true ->
  exists n,
    Main.get (Main.emojiCounts (Main.countAll Main.initial frames)) (Labels.value e) = Some n /\
    Main.get (Main.emojiCounts
                (Main.countExpression (Main.countAll Main.initial frames)
                                      (Some (Labels.value e)) t))
             (Labels.value e) = Some (n + 1) /\
    Main.lastExpression
      (Main.countExpression (Main.countAll Main.initial frames) (Some (Labels.value e)) t)
    = Labels.value e /\
    Main.lastRecognitionTime
      (Main.countExpression (Main.countAll Main.initial frames) (Some (Labels.value e)) t)
    = t.
Proof.
  intros Hl Ht.
  set (v := Main.countAll Main.initial frames) in *.
  assert (Hk : Main.hasOwnProperty (Main.emojiCounts v) (Labels.value e) = true).
  { apply hasOwnProperty_keys. unfold v. rewrite countAll_keys. apply value_is_key. }
  destruct (get_increment_same _ _ Hk) as (n & G1 & G2).
  exists n. split; [ exact G1 | ].
  unfold Main.countExpression.
  destruct (String.eqb_spec (Labels.value e) "") as [He | _];
    [ destruct (proj2 (value_is_key e) He) | ].
  destruct (String.eqb_spec (Labels.value e) (Main.lastExpression v)) as [He | _];
    [ contradiction | ].
  cbn [negb andb]. rewrite Ht, Hk.
  cbn [Main.emojiCounts Main.lastExpression Main.lastRecognitionTime]. auto.
Qed.

Lemma reported_expression_is_counted_witness :
  exists n,
    Main.get (Main.emojiCounts (Main.countAll Main.initial [(Some "happy"%string, 1500)]))
             (Labels.value WINK) = Some n /\
    Main.get (Main.emojiCounts
                (Main.countExpression (Main.countAll Main.initial [(Some "happy"%string, 1500)])
                                      (Some (Labels.value WINK)) 2600))
             (Labels.value WINK) = Some (n + 1) /\
    Main.lastExpression
      (Main.countExpression (Main.countAll Main.initial [(Some "happy"%string, 1500)])
                            (Some (Labels.value WINK)) 2600)
    = Labels.value WINK /\
    Main.lastRecognitionTime
      (Main.countExpression (Main.countAll Main.initial [(Some "happy"%string, 1500)])
                            (Some (Labels.value WINK)) 2600)
    = 2600.
Proof.
  apply (reported_expression_is_counted [(Some "happy"%string, 1500)] WINK 2600).
  - vm_compute. discriminate.
  - vm_compute. reflexivity.
Defined.
